(** * AISA serverless handlers: result store and exam-generation pipeline

    A shallow embedding of the five HTTP handlers of the repository

    - [guardar_resultado] (save an exam result, POST),
    - [obtener_resultado] (fetch a saved result by its share id, GET),
    - the direct-image exam generator,
    - the multi-file exam generator ([generar_examen], with a [finally]
      block that removes the uploads),
    - the OCR-then-text exam generator,

    followed by the properties of the specification that concern them.

    Every handler is an [async] JavaScript function that mutates process
    state (the mongoose connection, the collection, the temporary files on
    disk, the response object) and may throw.  It is modelled as a
    computation in a state-and-exception monad over an explicit [World].
    What the outside decides (the outcome of [mongoose.connect], of the
    OCR and generation providers, of the multipart parser, the value of
    [Math.random()] and of [Date.now()]) is read from an environment record
    handed to the handler. *)

From Stdlib Require Import ZArith Floats.PrimFloat Lia Ascii String.
From Stdlib Require Uint63.
From stdpp Require Import base strings list gmap.

Set Warnings "-register-all".
Local Open Scope string_scope.

(** ** JavaScript values *)

Module Js.

(** JSON-like values, as they arrive in [req.body] and [req.query] and as
    they are sent back by [res.json].  Numbers are IEEE-754 doubles.  A
    [Date] is kept as its number of milliseconds since the epoch.  The
    characters of a [string] stand for the code units of a JavaScript
    string, so that [String.length] is its [length]. *)
Inductive JsValue : Type :=
| JUndefined
| JNull
| JBool (b : bool)
| JNum (n : float)
| JStr (s : string)
| JDate (ms : Z)
| JArr (items : list JsValue)
| JObj (props : list (string * JsValue)).

(** [ToBoolean]: what [!v] and [v || d] test. *)
Definition truthy (v : JsValue) : bool :=
  match v with
  | JUndefined | JNull => false
  | JBool b => b
  | JNum n => negb (is_nan n || is_zero n)
  | JStr s => negb (String.eqb s "")
  | JDate _ | JArr _ | JObj _ => true
  end.

(** A field is absent or null: what the specification calls a missing
    field. *)
Definition nullish (v : JsValue) : bool :=
  match v with
  | JUndefined | JNull => true
  | _ => false
  end.

(** An exception value: [error.name] and [error.message]. *)
Record Exn : Type := mkExn { exn_name : string; message : string }.

Definition Error (msg : string) : Exn := mkExn "Error" msg.
Definition TypeError (msg : string) : Exn := mkExn "TypeError" msg.

(** Own-property lookup in an object literal: the first binding of the key,
    [undefined] when there is none. *)
Fixpoint assoc {A : Type} (k : string) (ps : list (string * A)) : option A :=
  match ps with
  | [] => None
  | (k', v) :: ps' => if String.eqb k k' then Some v else assoc k ps'
  end.

(** [o.k] for one of the property names the handlers read.  None of them is
    a built-in property of a string, number, boolean, date or array, so on
    those the access yields [undefined]; on [undefined] and [null] it is a
    [TypeError]. *)
Definition get_prop (o : JsValue) (k : string) : Exn + JsValue :=
  match o with
  | JUndefined =>
      inl (TypeError ("Cannot destructure property '" ++ k ++ "' of 'req.body' as it is undefined."))
  | JNull =>
      inl (TypeError ("Cannot destructure property '" ++ k ++ "' of 'req.body' as it is null."))
  | JObj ps => inr (default JUndefined (assoc k ps))
  | _ => inr JUndefined
  end.

End Js.
Export Js.

(** ** The state-and-exception monad *)

Module Eff.

Inductive Result (A : Type) : Type :=
| Val (a : A)
| Thrown (e : Exn).
Arguments Val {A} a.
Arguments Thrown {A} e.

(** A computation over a state [S]: it ends with a value or a thrown
    exception, and in both cases with the state it left behind. *)
Definition M (S A : Type) : Type := S -> Result A * S.

Definition ret {S A : Type} (a : A) : M S A := fun w => (Val a, w).

Definition bind {S A B : Type} (m : M S A) (k : A -> M S B) : M S B :=
  fun w =>
    match m w with
    | (Val a, w') => k a w'
    | (Thrown e, w') => (Thrown e, w')
    end.

Definition throw {S A : Type} (e : Exn) : M S A := fun w => (Thrown e, w).

(** [try { m } catch (e) { h e }] *)
Definition try_catch {S A : Type} (m : M S A) (h : Exn -> M S A) : M S A :=
  fun w =>
    match m w with
    | (Val a, w') => (Val a, w')
    | (Thrown e, w') => h e w'
    end.

(** [try { m } finally { f }]: [f] runs on every exit of [m]; an exception
    thrown by [f] replaces the outcome of [m]. *)
Definition try_finally {S A : Type} (m : M S A) (f : M S unit) : M S A :=
  fun w =>
    match m w with
    | (r, w') =>
        match f w' with
        | (Val _, w'') => (r, w'')
        | (Thrown e, w'') => (Thrown e, w'')
        end
    end.

Definition gets {S A : Type} (f : S -> A) : M S A := fun w => (Val (f w), w).
Definition modify {S : Type} (f : S -> S) : M S unit := fun w => (Val tt, f w).

(** Lifting of a pure computation that may throw. *)
Definition lift {S A : Type} (r : Exn + A) : M S A :=
  match r with
  | inl e => throw e
  | inr a => ret a
  end.

(** [for (const x of xs) { body x }] and [xs.forEach(body)]: the loop stops
    at the first exception. *)
Fixpoint for_each {S A : Type} (xs : list A) (body : A -> M S unit) : M S unit :=
  match xs with
  | [] => ret tt
  | x :: xs' => bind (body x) (fun _ => for_each xs' body)
  end.

(** A [let] variable of the enclosing function that a [try] block assigns
    and its [finally] block reads: a cell next to the state. *)
Definition lift_local {L S A : Type} (m : M S A) : M (L * S) A :=
  fun ls => match m (snd ls) with (r, s') => (r, (fst ls, s')) end.
Definition set_local {L S : Type} (l : L) : M (L * S) unit :=
  fun ls => (Val tt, (l, snd ls)).
Definition get_local {L S : Type} : M (L * S) L :=
  fun ls => (Val (fst ls), ls).
Definition run_local {L S A : Type} (l0 : L) (m : M (L * S) A) : M S A :=
  fun s => match m (l0, s) with (r, ls) => (r, snd ls) end.

(** [wp m Q w]: the run of [m] from [w] ends in an outcome and a state that
    satisfy [Q]. *)
Definition wp {S A : Type} (m : M S A) (Q : Result A -> S -> Prop) (w : S) : Prop :=
  Q (fst (m w)) (snd (m w)).

Declare Scope eff_scope.
Delimit Scope eff_scope with eff.
Notation "'let*' x ':=' m 'in' k" := (bind m (fun x => k))
  (at level 10, x name, m at level 100, k at level 200) : eff_scope.
Notation "m ';;;' k" := (bind m (fun _ => k))
  (at level 100, k at level 200, right associativity) : eff_scope.

End Eff.
Export Eff.
Local Open Scope eff_scope.

(** ** The process state shared by the handlers *)

Module Runtime.

(** A document of the [resultados] collection, as [ResultadoSchema] declares
    it, with the [_id] the driver adds. *)
Record Doc : Type := mkDoc {
  doc_id : string;
  uniqueId : string;
  timestamp : Z;
  puntuacion : JsValue;
  respuestas : JsValue;
  totalPreguntas : JsValue;
  examen : JsValue
}.

(** The plain object [findOne(...).lean()] yields for a stored document. *)
Definition doc_json (d : Doc) : JsValue :=
  JObj [("_id", JStr (doc_id d));
        ("uniqueId", JStr (uniqueId d));
        ("timestamp", JDate (timestamp d));
        ("puntuacion", puntuacion d);
        ("respuestas", respuestas d);
        ("totalPreguntas", totalPreguntas d);
        ("examen", examen d);
        ("__v", JNum 0)].

Inductive Body : Type :=
| Json (v : JsValue)          (* res.json(v) *)
| EndText (s : string)        (* res.end(s) *)
| EndEmpty.                   (* res.end() *)

Record Response : Type := mkResponse { status : N; body : Body }.

(** A part of the content list handed to the generation provider. *)
Inductive Prompt : Type :=
| PromptImages (examType : string)
    (* the template literal [userPrompt] of the direct-image handler *)
| PromptTutor (examType : string)
    (* the template literal pushed last by the multi-file handler *)
| PromptOcr (examType studyText : string).
    (* the template literal [prompt] of the OCR handler *)

Inductive Part : Type :=
| InlineData (data : string) (mimeType : option string)
    (* [data] is the file's buffer; the handlers send it base64-encoded *)
| Text (p : Prompt).

Record GenRequest : Type := mkGenRequest {
  gen_model : string;
  gen_contents : list Part;
  gen_schema : bool;             (* config.responseSchema given *)
  gen_systemInstruction : bool   (* systemInstruction given *)
}.

(** What a handler does to the outside, in the order it does it. *)
Inductive Event : Type :=
| EvConnect (ok : bool)                 (* mongoose.connect(uri) settled *)
| EvInsert (id : string) (ok : bool)    (* insertOne behind save() *)
| EvFindOne (id : JsValue)              (* findOne({uniqueId: id}) *)
| EvConsoleError (what : string) (detail : string)
| EvParseForm                           (* form.parse(req, ...) *)
| EvMkdir (dir : string)
| EvReadFile (path : string)
| EvOcr (image : string)                (* documentTextDetection *)
| EvGenerate (r : GenRequest)           (* models.generateContent *)
| EvUnlink (path : string).             (* fs.unlinkSync, attempted *)

Record World : Type := mkWorld {
  readyState : nat;                  (* mongoose.connections[0].readyState *)
  resultados : gmap string Doc;      (* the collection, by its unique index *)
  disk : gmap string string;         (* temporary files: path to contents *)
  res_headers : list (string * string);
  res_sent : option Response;        (* the response of the current request *)
  trace : list Event                 (* oldest first *)
}.

Definition set_readyState (n : nat) (w : World) : World :=
  mkWorld n (resultados w) (disk w) (res_headers w) (res_sent w) (trace w).
Definition set_resultados (c : gmap string Doc) (w : World) : World :=
  mkWorld (readyState w) c (disk w) (res_headers w) (res_sent w) (trace w).
Definition set_disk (d : gmap string string) (w : World) : World :=
  mkWorld (readyState w) (resultados w) d (res_headers w) (res_sent w) (trace w).
Definition add_header (h : string * string) (w : World) : World :=
  mkWorld (readyState w) (resultados w) (disk w) (res_headers w ++ [h]) (res_sent w) (trace w).
Definition set_sent (r : Response) (w : World) : World :=
  mkWorld (readyState w) (resultados w) (disk w) (res_headers w) (Some r) (trace w).
Definition emit (e : Event) (w : World) : World :=
  mkWorld (readyState w) (resultados w) (disk w) (res_headers w) (res_sent w) (trace w ++ [e]).

(** Each invocation receives a response object of its own. *)
Definition fresh_res (w : World) : World :=
  mkWorld (readyState w) (resultados w) (disk w) [] None (trace w).

Definition initial : World := mkWorld 0 ∅ ∅ [] None [].

Definition log (e : Event) : M World unit := modify (emit e).

(** [console.error(what, error)] *)
Definition console_error (what : string) (e : Exn) : M World unit :=
  log (EvConsoleError what (message e)).

(** [res.setHeader(k, v)] *)
Definition setHeader (k v : string) : M World unit := modify (add_header (k, v)).

(** [res.status(code).json(v)] and [res.status(code).end(...)]: Node refuses
    a second response on the same object. *)
Definition respond (code : N) (b : Body) : M World unit :=
  fun w =>
    match res_sent w with
    | None => (Val tt, set_sent (mkResponse code b) w)
    | Some _ =>
        (Thrown (mkExn "Error" "Cannot set headers after they are sent to the client"), w)
    end.

Definition error_body (msg : string) : Body := Json (JObj [("error", JStr msg)]).
Definition error_details (msg details : string) : Body :=
  Json (JObj [("error", JStr msg); ("details", JStr details)]).

(** The events a run from [w] to [w'] added to the trace. *)
Definition new_events (w w' : World) : list Event :=
  drop (length (trace w)) (trace w').

(** An invocation by the platform: [handler(req, res)] with a new [res]. *)
Definition invoke (h : M World unit) : M World unit := fun w => h (fresh_res w).

End Runtime.
Export Runtime.

(** ** The result store: [guardar_resultado] and [obtener_resultado] *)

Module ResultStore.

Record Request : Type := mkRequest {
  method : string;
  req_body : JsValue;                     (* req.body, parsed by the platform *)
  req_query : list (string * JsValue)     (* req.query *)
}.

(** What the outside decides during one invocation. *)
Record Env : Type := mkEnv {
  connectOutcome : option Exn;   (* [None]: mongoose.connect(uri) resolves *)
  driverOutcome : option Exn;    (* [None]: the driver reaches the server *)
  randomText : string;           (* Math.random().toString(36) *)
  now : Z;                       (* Date.now() *)
  newObjectId : string           (* the _id the driver generates *)
}.

(** The types [ResultadoSchema] declares for its paths. *)
Inductive SchemaType : Type := SString | SNumber | SMixed | SArray.

(** [Math.random().toString(36).substring(2, 8).toUpperCase()], as a
    function of the radix-36 rendering of the random number.
    [String.prototype.substring] clamps both indices to the length of the
    string. *)
Definition js_substring (from to : nat) (s : string) : string :=
  substring from (to - from) s.

(* [toUpperCase] on the ASCII characters a radix-36 rendering is made of. *)
Definition upper_char (c : ascii) : ascii :=
  let n := nat_of_ascii c in
  if (97 <=? n)%nat && (n <=? 122)%nat then ascii_of_nat (n - 32) else c.

Fixpoint toUpperCase (s : string) : string :=
  match s with
  | EmptyString => EmptyString
  | String c s' => String (upper_char c) (toUpperCase s')
  end.

Definition generateUniqueId (rendering : string) : string :=
  "R_" ++ toUpperCase (js_substring 2 8 rendering).

(** The pattern [R_[A-Z0-9]{6}] of the specification. *)
Definition is_upper_alnum (c : ascii) : bool :=
  let n := nat_of_ascii c in
  ((48 <=? n)%nat && (n <=? 57)%nat) || ((65 <=? n)%nat && (n <=? 90)%nat).

Fixpoint all_chars (p : ascii -> bool) (s : string) : bool :=
  match s with
  | EmptyString => true
  | String c s' => p c && all_chars p s'
  end.

Definition matches_shareId (s : string) : bool :=
  match s with
  | String "R" (String "_" t) => (String.length t =? 6)%nat && all_chars is_upper_alnum t
  | _ => false
  end.

(** What [Number.prototype.toString(36)] yields on a number of [0, 1): the
    digit 0 alone, or [0.] followed by at least one digit of [0-9a-z]. *)
Definition is_radix36_digit (c : ascii) : bool :=
  let n := nat_of_ascii c in
  ((48 <=? n)%nat && (n <=? 57)%nat) || ((97 <=? n)%nat && (n <=? 122)%nat).

Definition is_rendering (s : string) : bool :=
  match s with
  | String "0" EmptyString => true
  | String "0" (String "." ds) => negb (String.eqb ds "") && all_chars is_radix36_digit ds
  | _ => false
  end.

Section Handlers.

(** The schema layer of the object-document mapper: [cast t v] is what a
    path of type [t] holds after [v] was assigned to it and validated with
    [required: true], or [None] when validation rejects the document.  It
    belongs to the mongoose library, not to this repository, and is a
    parameter of the development. *)
Variable cast : SchemaType -> JsValue -> option JsValue.

(** [mongoose.connect(uri)] *)
Definition mongoose_connect (env : Env) : M World unit :=
  match connectOutcome env with
  | None => modify (fun w => emit (EvConnect true) (set_readyState 1 w))
  | Some e => log (EvConnect false) ;;; throw e
  end.

(** [connectToDatabase] of guardar_resultado.js *)
Definition connectToDatabase (env : Env) : M World unit :=
  let* rs := gets readyState in
  if negb (rs =? 0)%nat then ret tt
  else
    try_catch (mongoose_connect env)
      (fun error =>
         console_error "Error al conectar a MongoDB:" error ;;;
         throw (Error "No se pudo conectar a la base de datos.")).

(** [connectToDatabase] of obtener_resultado.js: no [try]. *)
Definition connectToDatabase_get (env : Env) : M World unit :=
  let* rs := gets readyState in
  if negb (rs =? 0)%nat then ret tt
  else mongoose_connect env.

(** [new Resultado({ uniqueId, puntuacion, respuestas, totalPreguntas,
    examen })]: every path is cast to its schema type; [timestamp] takes its
    default [Date.now]. *)
Record Resultado : Type := mkResultado {
  r_id : string;
  r_uniqueId : string;
  r_timestamp : Z;
  r_puntuacion : option JsValue;
  r_respuestas : option JsValue;
  r_totalPreguntas : option JsValue;
  r_examen : option JsValue
}.

(* [uniqueId] is always the non-empty string the generator made: its cast
   to [String] and its [required] check change nothing. *)
Definition new_Resultado (env : Env) (uid : string) (p r t e : JsValue) : Resultado :=
  mkResultado (newObjectId env) uid (now env)
    (cast SNumber p) (cast SMixed r) (cast SNumber t) (cast SArray e).

(** [doc.save()]: validation, then an insert under the unique index on
    [uniqueId]. *)
Definition validate (r : Resultado) : Exn + Doc :=
  match r_puntuacion r, r_respuestas r, r_totalPreguntas r, r_examen r with
  | Some p, Some a, Some t, Some e =>
      inr (mkDoc (r_id r) (r_uniqueId r) (r_timestamp r) p a t e)
  | _, _, _, _ => inl (mkExn "ValidationError" "Resultado validation failed")
  end.

Definition insertOne (env : Env) (d : Doc) : M World unit :=
  match driverOutcome env with
  | Some e => log (EvInsert (uniqueId d) false) ;;; throw e
  | None =>
      let* c := gets resultados in
      match c !! uniqueId d with
      | Some _ =>
          log (EvInsert (uniqueId d) false) ;;;
          throw (mkExn "MongoServerError" "E11000 duplicate key error")
      | None =>
          modify (fun w => emit (EvInsert (uniqueId d) true)
                             (set_resultados (<[uniqueId d := d]> c) w))
      end
  end.

Definition save (env : Env) (r : Resultado) : M World unit :=
  let* d := lift (validate r) in
  insertOne env d.

(** [Resultado.findOne({ uniqueId: shareId }).lean()]: a string is looked
    up as it is; any other filter value goes through the schema's cast to
    [String] first.  An array, which mongoose rewrites to an [$in] filter,
    is not followed further: what is proved about the document a lookup
    finds is stated for string ids. *)
Definition filter_id (shareId : JsValue) : Exn + option string :=
  match shareId with
  | JStr s => inr (Some s)
  | v =>
      match cast SString v with
      | None => inl (mkExn "CastError" "Cast to string failed for path uniqueId")
      | Some (JStr s) => inr (Some s)
      | Some _ => inr None
      end
  end.

Definition findOne (env : Env) (shareId : JsValue) : M World (option Doc) :=
  let* key := lift (filter_id shareId) in
  log (EvFindOne shareId) ;;;
  match driverOutcome env with
  | Some e => throw e
  | None =>
      let* c := gets resultados in
      ret (key ≫= fun s => c !! s)
  end.

(** [handler] of guardar_resultado.js *)
Definition guardar_body (env : Env) (req : Request) : M World unit :=
  if negb (String.eqb (method req) "POST") then
    respond 405%N (error_body "Solo se permiten peticiones POST.")
  else
    try_catch
      (connectToDatabase env ;;;
       let* puntuacion := lift (get_prop (req_body req) "puntuacion") in
       let* respuestas := lift (get_prop (req_body req) "respuestas") in
       let* totalPreguntas := lift (get_prop (req_body req) "totalPreguntas") in
       let* examen := lift (get_prop (req_body req) "examen") in
       if negb (truthy puntuacion) || negb (truthy respuestas)
          || negb (truthy totalPreguntas) || negb (truthy examen)
       then respond 400%N (error_body "Faltan datos de resultados para guardar.")
       else
         let uniqueId := generateUniqueId (randomText env) in
         let newResultado :=
           new_Resultado env uniqueId puntuacion respuestas totalPreguntas examen in
         save env newResultado ;;;
         respond 201%N (Json (JObj [("success", JBool true); ("shareId", JStr uniqueId)])))
      (fun error =>
         console_error "Error al guardar el resultado:" error ;;;
         respond 500%N
           (error_details "Error interno del servidor al guardar el resultado." (message error))).

Definition guardar_resultado (env : Env) (req : Request) : M World unit :=
  invoke (guardar_body env req).

(** [handler] of obtener_resultado.js *)
Definition obtener_body (env : Env) (req : Request) : M World unit :=
  if negb (String.eqb (method req) "GET") then
    respond 405%N (error_body "Solo se permiten peticiones GET.")
  else
    let shareId := default JUndefined (assoc "shareId" (req_query req)) in
    if negb (truthy shareId) then
      respond 400%N (error_body "Falta el parámetro shareId.")
    else
      try_catch
        (connectToDatabase_get env ;;;
         let* resultado := findOne env shareId in
         match resultado with
         | None => respond 404%N (error_body "Resultado de examen no encontrado.")
         | Some d =>
             respond 200%N (Json (JObj [("success", JBool true); ("resultado", doc_json d)]))
         end)
        (fun error =>
           console_error "Error al obtener el resultado:" error ;;;
           respond 500%N
             (error_details "Error interno del servidor al obtener el resultado." (message error))).

Definition obtener_resultado (env : Env) (req : Request) : M World unit :=
  invoke (obtener_body env req).

(** The value the handler binds to a payload field when it destructures
    [req.body]. *)
Definition payload_field (req : Request) (k : string) : JsValue :=
  match get_prop (req_body req) k with
  | inr v => v
  | inl _ => JUndefined
  end.

(** The validation of the save handler, on the payload: one of the four
    fields is falsy; one of them is absent or null. *)
Definition some_field_falsy (req : Request) : bool :=
  negb (truthy (payload_field req "puntuacion"))
  || negb (truthy (payload_field req "respuestas"))
  || negb (truthy (payload_field req "totalPreguntas"))
  || negb (truthy (payload_field req "examen")).

Definition some_field_missing (req : Request) : bool :=
  nullish (payload_field req "puntuacion")
  || nullish (payload_field req "respuestas")
  || nullish (payload_field req "totalPreguntas")
  || nullish (payload_field req "examen").

(** The connection is up, or [mongoose.connect] will succeed. *)
Definition connection_available (env : Env) (w : World) : Prop :=
  readyState w <> 0 \/ connectOutcome env = None.

(** The responses of the two handlers. *)
Definition missing_fields_response : Response :=
  mkResponse 400%N (error_body "Faltan datos de resultados para guardar.").

Definition saved_response (shareId : string) : Response :=
  mkResponse 201%N (Json (JObj [("success", JBool true); ("shareId", JStr shareId)])).

Definition save_failed_response (details : string) : Response :=
  mkResponse 500%N
    (error_details "Error interno del servidor al guardar el resultado." details).

Definition found_response (d : Doc) : Response :=
  mkResponse 200%N (Json (JObj [("success", JBool true); ("resultado", doc_json d)])).

Definition not_found_response : Response :=
  mkResponse 404%N (error_body "Resultado de examen no encontrado.").

(** A payload with every field present and a score of zero. *)
Definition zero_score_request : Request :=
  mkRequest "POST"
    (JObj [("puntuacion", JNum 0);
           ("respuestas", JObj [("q1", JStr "a")]);
           ("totalPreguntas", JNum 10);
           ("examen", JArr [JObj [("id", JStr "q1"); ("respuesta_correcta", JStr "b")]])])
    [].

(** A payload as the front end sends it, and an environment in which the
    database and the driver answer. *)
Definition sample_request : Request :=
  mkRequest "POST"
    (JObj [("puntuacion", JNum 8);
           ("respuestas", JObj [("q1", JStr "a")]);
           ("totalPreguntas", JNum 10);
           ("examen", JArr [JObj [("id", JStr "q1"); ("respuesta_correcta", JStr "b")]])])
    [].

Definition incomplete_request : Request :=
  mkRequest "POST"
    (JObj [("puntuacion", JNum 8);
           ("respuestas", JObj [("q1", JStr "a")]);
           ("examen", JArr [JObj [("id", JStr "q1"); ("respuesta_correcta", JStr "b")]])])
    [].

Definition lookup_request (shareId : string) : Request :=
  mkRequest "GET" JUndefined [("shareId", JStr shareId)].

Definition sample_env : Env := mkEnv None None "0.4fzyo82mvyr" 1700000000000 "651f0c2ab7e4".
Definition later_env : Env := mkEnv None None "0.k3x9q0zt1ab" 1700000060000 "651f0c2ab7e5".
Definition offline_env : Env :=
  mkEnv (Some (mkExn "MongooseServerSelectionError" "connect ECONNREFUSED"))
    None "0.4fzyo82mvyr" 1700000000000 "651f0c2ab7e4".

(** A sequence of invocations in one process: both handlers share the
    mongoose connection and the collection. *)
Inductive Call : Type :=
| CallGuardar (env : Env) (req : Request)
| CallObtener (env : Env) (req : Request).

Definition run_call (c : Call) (w : World) : World :=
  match c with
  | CallGuardar env req => snd (guardar_resultado env req w)
  | CallObtener env req => snd (obtener_resultado env req w)
  end.

Definition run_calls (cs : list Call) (w : World) : World :=
  foldl (fun w c => run_call c w) w cs.

End Handlers.

(** A schema layer that leaves every value as it is (every payload is
    valid for it). *)
Definition identity_cast : SchemaType -> JsValue -> option JsValue :=
  fun _ v => Some v.

(** The schema layer as mongoose runs it on the values the save handler
    lets through (truthy values of a parsed JSON body), for the paths of
    [ResultadoSchema], each with [required: true]:

    - a [Number] path keeps a number (NaN is a cast error), turns a
      boolean into 0 or 1 and a string into [Number(string)], a cast error
      when that is NaN; arrays and plain objects are cast errors;
    - a path of type [Object] is a Mixed path and keeps every value;
    - an [Array] path keeps an array and wraps any other value into an
      array of one element;
    - a [String] path keeps a string.

    [Number(string)] is embedded on unsigned decimal integer literals of
    at most 15 digits, which a double holds exactly; every other string is
    refused here, also the further numeric literals that [Number] reads.
    An absent or null value fails [required]. *)
Definition digit_value (c : ascii) : option Z :=
  let n := nat_of_ascii c in
  if (48 <=? n)%nat && (n <=? 57)%nat then Some (Z.of_nat (n - 48)) else None.

Fixpoint decimal_value (acc : Z) (s : string) : option Z :=
  match s with
  | EmptyString => Some acc
  | String c s' =>
      match digit_value c with
      | Some d => decimal_value (10 * acc + d) s'
      | None => None
      end
  end.

Definition string_to_number (s : string) : option float :=
  if (1 <=? String.length s)%nat && (String.length s <=? 15)%nat then
    match decimal_value 0 s with
    | Some z => Some (PrimFloat.of_uint63 (Uint63.of_Z z))
    | None => None
    end
  else None.

Definition mongoose_cast (t : SchemaType) (v : JsValue) : option JsValue :=
  match t, v with
  | _, JUndefined | _, JNull => None
  | SNumber, JNum n => if is_nan n then None else Some v
  | SNumber, JBool b => Some (JNum (if b then 1 else 0))
  | SNumber, JStr s =>
      match string_to_number s with
      | Some n => Some (JNum n)
      | None => None
      end
  | SNumber, _ => None
  | SMixed, _ => Some v
  | SArray, JArr _ => Some v
  | SArray, _ => Some (JArr [v])
  | SString, JStr _ => Some v
  | SString, _ => None
  end.

(** A payload whose number of questions arrives as the text of a form
    input. *)
Definition text_count_request : Request :=
  mkRequest "POST"
    (JObj [("puntuacion", JNum 8);
           ("respuestas", JObj [("q1", JStr "a")]);
           ("totalPreguntas", JStr "10");
           ("examen", JArr [JObj [("id", JStr "q1"); ("respuesta_correcta", JStr "b")]])])
    [].

(** Connections established, and connection attempts that failed, in a
    trace. *)
Fixpoint connections_established (t : list Event) : nat :=
  match t with
  | [] => 0
  | EvConnect true :: t' => S (connections_established t')
  | _ :: t' => connections_established t'
  end.

Fixpoint connect_failures (t : list Event) : nat :=
  match t with
  | [] => 0
  | EvConnect false :: t' => S (connect_failures t')
  | _ :: t' => connect_failures t'
  end.

(** How one invocation may move the connection: with a connection in
    place nothing changes; without one, the run establishes at most one. *)
Definition connection_step (w w' : World) : Prop :=
  (readyState w <> 0 ->
   readyState w' = readyState w
   /\ connections_established (trace w') = connections_established (trace w))
  /\ (readyState w = 0 ->
      (readyState w' = 0
       /\ connections_established (trace w') = connections_established (trace w))
      \/ (readyState w' = 1
          /\ connections_established (trace w') = S (connections_established (trace w)))).

(** The invariant of a process: no connection yet, or the one that is up. *)
Definition connection_inv (base : nat) (w : World) : Prop :=
  (readyState w = 0 /\ connections_established (trace w) = base)
  \/ (readyState w <> 0 /\ connections_established (trace w) <= S base).

End ResultStore.

(** ** The exam-generation handlers *)

Module ExamPipeline.

(** A file formidable wrote to the upload directory. *)
Record File : Type := mkFile {
  filepath : string;
  mimetype : option string;
  contents : string
}.

(** A value formidable reports for a form key: one value or an array. *)
Inductive Entry (A : Type) : Type :=
| One (a : A)
| Many (l : list A).
Arguments One {A} a.
Arguments Many {A} l.

Record Form : Type := mkForm {
  form_fields : list (string * Entry string);
  form_files : list (string * Entry File)
}.

Record Request : Type := mkRequest { method : string }.

(** What the outside decides during one invocation.  A file over the size
    limit of the OCR handler (5 MB) makes [form.parse] fail: it is an error
    outcome of the parser. *)
Record Env : Type := mkEnv {
  parseOutcome : Exn + Form;          (* form.parse: err, or fields and files *)
  uploadDir : string;                 (* '/tmp' in production, cwd/temp otherwise *)
  uploadDirExists : bool;             (* fs.existsSync(tempDir) *)
  ocrOutcome : Exn + option string;   (* result.fullTextAnnotation?.text *)
  genOutcome : Exn + option string    (* response.text *)
}.

Definition defaultExamType : string := "5 preguntas de opción múltiple".

Definition entry_list {A : Type} (e : Entry A) : list A :=
  match e with
  | One a => [a]
  | Many l => l
  end.

Definition all_files (f : Form) : list File :=
  concat (map (fun kv => entry_list (snd kv)) (form_files f)).

(** [v[0]] on what formidable reports: the first element of an array, the
    first character of a string. *)
Definition first_of_field (e : Entry string) : option string :=
  match e with
  | Many l => head l
  | One (String c _) => Some (String c EmptyString)
  | One EmptyString => None
  end.

(** A [File] object has no property [0]. *)
Definition first_of_files (e : Entry File) : option File :=
  match e with
  | Many l => head l
  | One _ => None
  end.

(** [Array.isArray(v) ? v[0] : v] *)
Definition flat_field (e : Entry string) : option string :=
  match e with
  | Many l => head l
  | One s => Some s
  end.

(** [s || d] on an optional string *)
Definition or_default (s : option string) (d : string) : string :=
  match s with
  | Some (String c r) => String c r
  | _ => d
  end.

(** [!!v] on a value that is an object or [undefined]. *)
Definition present {A : Type} (v : option A) : bool :=
  match v with
  | Some _ => true
  | None => false
  end.

(** A string is truthy when it is not empty. *)
Definition nonempty (s : string) : bool := negb (String.eqb s "").
Definition truthy_opt (s : option string) : bool :=
  match s with
  | Some s => nonempty s
  | None => false
  end.

Section Handlers.

(** [JSON.parse] ([None]: it throws a [SyntaxError]) and
    [String.prototype.trim], of the JavaScript runtime. *)
Variable JSON_parse : string -> option JsValue.
Variable trim : string -> string.

Definition syntaxError : Exn := mkExn "SyntaxError" "Unexpected token in JSON".

(** [form.parse(req, callback)]: formidable writes every uploaded file to
    the upload directory, then reports the fields and the files. *)
Definition write_files (fs : list File) (d : gmap string string) : gmap string string :=
  foldl (fun d f => <[filepath f := contents f]> d) d fs.

Definition form_parse (env : Env) : M World Form :=
  log EvParseForm ;;;
  match parseOutcome env with
  | inl e => throw e
  | inr f =>
      modify (fun w => set_disk (write_files (all_files f) (disk w)) w) ;;;
      ret f
  end.

(** [fs.readFileSync(path)] and [fs.promises.readFile(path)] *)
Definition readFile (path : string) : M World string :=
  log (EvReadFile path) ;;;
  let* d := gets disk in
  match d !! path with
  | Some c => ret c
  | None => throw (mkExn "Error" ("ENOENT: no such file or directory, open '" ++ path ++ "'"))
  end.

(** [fs.unlinkSync(path)] *)
Definition unlinkSync (path : string) : M World unit :=
  log (EvUnlink path) ;;;
  let* d := gets disk in
  match d !! path with
  | Some _ => modify (fun w => set_disk (delete path d) w)
  | None => throw (mkExn "Error" ("ENOENT: no such file or directory, unlink '" ++ path ++ "'"))
  end.

(** [ai.models.generateContent(request)]: yields [response.text] *)
Definition generateContent (env : Env) (r : GenRequest) : M World (option string) :=
  log (EvGenerate r) ;;; lift (genOutcome env).

(** [visionClient.documentTextDetection(image)], then
    [result.fullTextAnnotation?.text] *)
Definition documentTextDetection (env : Env) (image : string) : M World (option string) :=
  log (EvOcr image) ;;; lift (ocrOutcome env).

(** [response.text.trim()]: a [TypeError] when [text] is undefined. *)
Definition text_trim (t : option string) : Exn + string :=
  match t with
  | Some s => inr (trim s)
  | None => inl (TypeError "Cannot read properties of undefined (reading 'trim')")
  end.

(** *** The direct-image handler *)

(** The loop over [inputFiles] that fills [imageParts]. *)
Fixpoint image_parts (files : list File) : M World (list Part) :=
  match files with
  | [] => ret []
  | file :: rest =>
      let* here :=
        (if nonempty (filepath file) && truthy_opt (mimetype file) then
           let* buffer := readFile (filepath file) in
           ret [InlineData buffer (mimetype file)]
         else ret []) in
      let* more := image_parts rest in
      ret (here ++ more)%list
  end.

Definition direct_body (env : Env) (req : Request) : M World unit :=
  if negb (String.eqb (method req) "POST") then
    setHeader "Allow" "POST" ;;;
    respond 405%N (EndText ("Method " ++ method req ++ " Not Allowed"))
  else
    try_catch
      (let* form :=
         try_catch (form_parse env)
           (fun err => console_error "Error al parsear el formulario:" err ;;; throw err) in
       let flatFields := fun key => assoc key (form_fields form) ≫= flat_field in
       let examType := or_default (flatFields "exam_type") defaultExamType in
       let inputFiles :=
         match assoc "files" (form_files form) with
         | None => []
         | Some fileList => entry_list fileList
         end in
       if (length inputFiles =? 0)%nat then
         respond 400%N (error_body "No se encontraron archivos de material de estudio.")
       else
         let* imageParts := image_parts inputFiles in
         let modelContents := (imageParts ++ [Text (PromptImages examType)])%list in
         let* text :=
           generateContent env
             (mkGenRequest "gemini-2.5-flash-preview-09-2025" modelContents false true) in
         let* jsonText := lift (text_trim text) in
         match JSON_parse jsonText with
         | None =>
             console_error "Error al parsear la respuesta JSON del modelo:" syntaxError ;;;
             respond 500%N (error_details "La IA devolvió un formato inválido. Reintenta." jsonText)
         | Some parsedJson =>
             respond 200%N
               (Json (JObj [("message", JStr "Examen generado exitosamente.");
                            ("examen", parsedJson)]))
         end)
      (fun error =>
         console_error "Error en la función handler:" error ;;;
         respond 500%N
           (error_details
              "Error interno del servidor. Verifique la clave API o el formato de la solicitud."
              (message error))).

Definition direct_handler (env : Env) (req : Request) : M World unit :=
  invoke (direct_body env req).

(** *** The multi-file handler (generar_examen.js, with [finally]) *)

(** [Array.isArray(files.files) ? files.files : [files.files]]: an absent
    key gives the one-element array [[undefined]]. *)
Definition uploaded_files (form : Form) : list (option File) :=
  match assoc "files" (form_files form) with
  | Some (Many l) => map Some l
  | Some (One f) => [Some f]
  | None => [None]
  end.

(** The first [forEach]: one inline part per file that has a path. *)
Fixpoint inline_parts (files : list (option File)) : M World (list Part) :=
  match files with
  | [] => ret []
  | file :: rest =>
      let* here :=
        match file with
        | Some f =>
            if nonempty (filepath f) then
              let* buffer := readFile (filepath f) in
              ret [InlineData buffer (mimetype f)]
            else ret []
        | None => ret []
        end in
      let* more := inline_parts rest in
      ret (here ++ more)%list
  end.

(** The [forEach] of the [finally] block. *)
Definition cleanup (files : list (option File)) : M World unit :=
  for_each files
    (fun file =>
       match file with
       | Some f => if nonempty (filepath f) then unlinkSync (filepath f) else ret tt
       | None => ret tt
       end).

Definition multi_body (env : Env) (req : Request) : M World unit :=
  setHeader "Access-Control-Allow-Origin" "*" ;;;
  setHeader "Access-Control-Allow-Methods" "POST, OPTIONS" ;;;
  setHeader "Access-Control-Allow-Headers" "Content-Type" ;;;
  if String.eqb (method req) "OPTIONS" then respond 200%N EndEmpty
  else if negb (String.eqb (method req) "POST") then
    respond 405%N (error_body "Solo se permiten peticiones POST.")
  else
    let* form := form_parse env in
    let uploadedFiles := uploaded_files form in
    let examType :=
      or_default (assoc "exam_type" (form_fields form) ≫= first_of_field) defaultExamType in
    if (length uploadedFiles =? 0)%nat || negb (present (head uploadedFiles ≫= id))
    then respond 400%N (error_body "No se ha subido ningún archivo.")
    else
      try_finally
        (try_catch
           (let* parts := inline_parts uploadedFiles in
            let prompt := (parts ++ [Text (PromptTutor examType)])%list in
            let* text := generateContent env (mkGenRequest "gemini-2.5-flash" prompt true false) in
            let* jsonText := lift (text_trim text) in
            match JSON_parse jsonText with
            | None => throw syntaxError
            | Some examenJSON => respond 200%N (Json examenJSON)
            end)
           (fun apiError =>
              console_error "Error en la API de Gemini:" apiError ;;;
              respond 500%N
                (error_details
                   "Error al procesar la solicitud con Gemini. Revisa los logs de Vercel."
                   (message apiError))))
        (cleanup uploadedFiles).

Definition multi_handler (env : Env) (req : Request) : M World unit :=
  invoke (multi_body env req).

(** *** The OCR-then-text handler *)

(** [parseForm(req)] *)
Definition parseForm (env : Env) : M World (list (string * option string) * list (string * option File)) :=
  (if uploadDirExists env then ret tt else log (EvMkdir (uploadDir env))) ;;;
  let* form := form_parse env in
  let simpleFields := map (fun kv => (fst kv, first_of_field (snd kv))) (form_fields form) in
  let simpleFiles := map (fun kv => (fst kv, first_of_files (snd kv))) (form_files form) in
  ret (simpleFields, simpleFiles).

Definition quoted (s : string) : string :=
  String (ascii_of_nat 34) s ++ String (ascii_of_nat 34) EmptyString.

Definition ocr_try (env : Env) : M (option string * World) unit :=
  let* parsed := lift_local (parseForm env) in
  let fields := fst parsed in
  let files := snd parsed in
  match assoc "file" files ≫= id with
  | None =>
      lift_local
        (respond 400%N (error_body ("No se proporcionó un archivo bajo la clave " ++ quoted "file" ++ ".")))
  | Some file =>
      set_local (Some (filepath file)) ;;;
      let examType := or_default (assoc "exam_type" fields ≫= id) defaultExamType in
      let* imageContent := lift_local (readFile (filepath file)) in
      let* studyText := lift_local (documentTextDetection env imageContent) in
      match studyText with
      | Some text =>
          if negb (nonempty text) || (String.length text <? 50)%nat then
            lift_local
              (respond 500%N
                 (error_body "OCR falló: No se pudo extraer suficiente texto (mínimo 50 caracteres)."))
          else
            let prompt := [Text (PromptOcr examType text)] in
            let* response :=
              lift_local (generateContent env (mkGenRequest "gemini-2.5-pro" prompt false false)) in
            match response ≫= JSON_parse with
            | None => throw syntaxError
            | Some examJson =>
                lift_local
                  (respond 200%N
                     (Json (JObj [("status", JStr "Examen generado exitosamente (Serverless)");
                                  ("tipo_solicitado", JStr examType);
                                  ("examen", examJson)])))
            end
      | None =>
          lift_local
            (respond 500%N
               (error_body "OCR falló: No se pudo extraer suficiente texto (mínimo 50 caracteres)."))
      end
  end.

Definition ocr_finally : M (option string * World) unit :=
  let* filePath := get_local in
  match filePath with
  | Some path =>
      if nonempty path then
        try_catch (lift_local (unlinkSync path))
          (fun err => lift_local (console_error "Error al limpiar el archivo temporal:" err))
      else ret tt
  | None => ret tt
  end.

Definition ocr_body (env : Env) (req : Request) : M World unit :=
  if negb (String.eqb (method req) "POST") then
    respond 405%N (error_body "Solo se permiten peticiones POST.")
  else
    run_local None
      (try_finally
         (try_catch (ocr_try env)
            (fun error =>
               lift_local
                 (console_error "Error en Serverless Function:" error ;;;
                  respond 500%N
                    (error_details "Error interno del servidor Serverless durante el proceso."
                       (message error)))))
         ocr_finally).

Definition ocr_handler (env : Env) (req : Request) : M World unit :=
  invoke (ocr_body env req).

End Handlers.

(** The uploaded materials a handler looks for: the files under its form
    key. *)
Definition materials (key : string) (form : Form) : list File :=
  match assoc key (form_files form) with
  | None => []
  | Some e => entry_list e
  end.

(** Observations on a trace: the calls to the OCR and generation
    providers, the requests sent to the generation provider, and the
    attempts to delete a path. *)
Fixpoint provider_calls (t : list Event) : nat :=
  match t with
  | [] => 0
  | (EvOcr _ | EvGenerate _) :: t' => S (provider_calls t')
  | _ :: t' => provider_calls t'
  end.

Fixpoint generate_requests (t : list Event) : list GenRequest :=
  match t with
  | [] => []
  | EvGenerate r :: t' => r :: generate_requests t'
  | _ :: t' => generate_requests t'
  end.

Fixpoint unlink_count (path : string) (t : list Event) : nat :=
  match t with
  | [] => 0
  | EvUnlink p :: t' => (if String.eqb p path then 1 else 0) + unlink_count path t'
  | _ :: t' => unlink_count path t'
  end.

(** [studyText.length], 0 for an absent text. *)
Definition text_length (t : option string) : nat :=
  match t with
  | Some s => String.length s
  | None => 0
  end.

(** The responses to a request without material, and to a text that is too
    short. *)
Definition direct_no_material : Response :=
  mkResponse 400%N (error_body "No se encontraron archivos de material de estudio.").
Definition multi_no_material : Response :=
  mkResponse 400%N (error_body "No se ha subido ningún archivo.").
Definition ocr_no_material : Response :=
  mkResponse 400%N
    (error_body ("No se proporcionó un archivo bajo la clave " ++ quoted "file" ++ ".")).
Definition ocr_insufficient_text : Response :=
  mkResponse 500%N
    (error_body "OCR falló: No se pudo extraer suficiente texto (mínimo 50 caracteres).").

(** The request the OCR handler sends to the generation provider. *)
Definition ocr_generation (form : Form) (text : string) : GenRequest :=
  mkGenRequest "gemini-2.5-pro"
    [Text (PromptOcr
             (or_default (assoc "exam_type" (form_fields form) ≫= first_of_field)
                defaultExamType)
             text)]
    false false.

(** An upload of one image, with providers that answer, for the
    direct-image handler. *)
Definition one_image : File := mkFile "/tmp/upload_1" (Some "image/png") "PNG".

Definition one_image_env : Env :=
  mkEnv (inr (mkForm [] [("files", Many [one_image])])) "/tmp" true
    (inr None) (inr (Some "{}")).

(** Uploads without material, and an upload for the OCR handler with an
    extracted text of a given length. *)
Definition empty_upload_env : Env :=
  mkEnv (inr (mkForm [("exam_type", Many ["10 preguntas"])] [])) "/tmp" true
    (inr None) (inr (Some "{}")).

Fixpoint text_of_length (n : nat) : string :=
  match n with
  | 0 => EmptyString
  | S n' => String "a" (text_of_length n')
  end.

Definition ocr_form : Form :=
  mkForm [("exam_type", Many ["10 preguntas"])] [("file", Many [one_image])].

Definition ocr_env (n : nat) : Env :=
  mkEnv (inr ocr_form) "/tmp" true (inr (Some (text_of_length n))) (inr (Some "{}")).

Definition two_images_env : Env :=
  mkEnv (inr (mkForm [] [("files", Many [one_image; mkFile "/tmp/upload_2" (Some "image/jpeg") "JPG"])]))
    "/tmp" true (inr None) (inr None).

Definition two_under_file_env : Env :=
  mkEnv (inr (mkForm [] [("file", Many [one_image; mkFile "/tmp/upload_2" (Some "image/jpeg") "JPG"])]))
    "/tmp" true (inr (Some (text_of_length 60))) (inr (Some "{}")).

(** A JSON parser that accepts every text, for the runs below. *)
Definition accept_json : string -> option JsValue := fun _ => Some (JObj []).

(** A run of [m] from [w] to [w'] that leaves the disk alone and deletes
    nothing. *)
Definition quiet (w w' : World) : Prop :=
  disk w' = disk w
  /\ exists evs, trace w' = (trace w ++ evs)%list
                 /\ (forall p, unlink_count p evs = 0).

End ExamPipeline.

(** ** Further observations on runs *)

Module Coverage.
Import ExamPipeline.

(** The state after a run that did nothing but add [evs] to the trace. *)
Definition emit_all (evs : list Event) (w : World) : World :=
  mkWorld (readyState w) (resultados w) (disk w) (res_headers w) (res_sent w)
    (trace w ++ evs)%list.

(** A file the loop of the direct-image handler turns into a part: it has a
    path and a media type.  The multi-file handler asks for the path only. *)
Definition usable_image (f : File) : bool :=
  nonempty (filepath f) && truthy_opt (mimetype f).

Definition has_path (f : File) : bool := nonempty (filepath f).

(** [fileToGenerativePart(buffer, file.mimetype)] on the bytes of the
    upload. *)
Definition part_of_file (f : File) : Part := InlineData (contents f) (mimetype f).

(** The exam type a handler puts in its prompt. *)
Definition flat_exam_type (form : Form) : string :=
  or_default (assoc "exam_type" (form_fields form) ≫= flat_field) defaultExamType.

Definition first_exam_type (form : Form) : string :=
  or_default (assoc "exam_type" (form_fields form) ≫= first_of_field) defaultExamType.

(** The one request each handler sends to the generation provider. *)
Definition direct_generation (form : Form) : GenRequest :=
  mkGenRequest "gemini-2.5-flash-preview-09-2025"
    (map part_of_file (List.filter usable_image (materials "files" form))
     ++ [Text (PromptImages (flat_exam_type form))])%list
    false true.

Definition multi_generation (form : Form) : GenRequest :=
  mkGenRequest "gemini-2.5-flash"
    (map part_of_file (List.filter has_path (materials "files" form))
     ++ [Text (PromptTutor (first_exam_type form))])%list
    true false.

(** The file the OCR handler picks: the first one under [file]. *)
Definition picked_file (form : Form) : option File :=
  assoc "file" (form_files form) ≫= first_of_files.

(** The headers the multi-file handler sets first. *)
Definition cors_headers : list (string * string) :=
  [("Access-Control-Allow-Origin", "*");
   ("Access-Control-Allow-Methods", "POST, OPTIONS");
   ("Access-Control-Allow-Headers", "Content-Type")].

(** The bodies of the 500 responses. *)
Definition direct_failed (details : string) : Response :=
  mkResponse 500%N
    (error_details
       "Error interno del servidor. Verifique la clave API o el formato de la solicitud."
       details).

Definition direct_bad_format (raw : string) : Response :=
  mkResponse 500%N (error_details "La IA devolvió un formato inválido. Reintenta." raw).

Definition multi_failed (details : string) : Response :=
  mkResponse 500%N
    (error_details "Error al procesar la solicitud con Gemini. Revisa los logs de Vercel."
       details).

Definition ocr_failed (details : string) : Response :=
  mkResponse 500%N
    (error_details "Error interno del servidor Serverless durante el proceso." details).

Definition lookup_failed (details : string) : Response :=
  mkResponse 500%N
    (error_details "Error interno del servidor al obtener el resultado." details).

Definition post_only_response : Response :=
  mkResponse 405%N (error_body "Solo se permiten peticiones POST.").

(** The conditions of a successful save, on a request whose body can be
    destructured: the fields are truthy, the schema layer [cast] accepts
    them, the driver reaches the server and the generated id is free. *)
Definition savable (cast : ResultStore.SchemaType -> JsValue -> option JsValue)
    (env : ResultStore.Env) (req : ResultStore.Request) (w : World) : Prop :=
  ResultStore.some_field_falsy req = false
  /\ is_Some (cast ResultStore.SNumber (ResultStore.payload_field req "puntuacion"))
  /\ is_Some (cast ResultStore.SMixed (ResultStore.payload_field req "respuestas"))
  /\ is_Some (cast ResultStore.SNumber (ResultStore.payload_field req "totalPreguntas"))
  /\ is_Some (cast ResultStore.SArray (ResultStore.payload_field req "examen"))
  /\ ResultStore.driverOutcome env = None
  /\ resultados w
       !! ResultStore.generateUniqueId (ResultStore.randomText env) = None.

(** Events that are reads of a file. *)
Definition is_read (e : Event) : bool :=
  match e with
  | EvReadFile _ => true
  | _ => false
  end.

(** The part the handlers build from what is on disk under the path of a
    file, and the reads of a list of files. *)
Definition disk_part (d : gmap string string) (f : File) : Part :=
  InlineData (default "" (d !! filepath f)) (mimetype f).

Definition reads (fs : list File) : list Event :=
  map (fun f => EvReadFile (filepath f)) fs.

(** The deletions of a list of files, one after the other, and the state
    they leave. *)
Definition unlinks (fs : list File) : list Event :=
  map (fun f => EvUnlink (filepath f)) fs.

Definition remove_all (fs : list File) (d : gmap string string) : gmap string string :=
  foldl (fun d f => delete (filepath f) d) d fs.

Definition after_cleanup (fs : list File) (w : World) : World :=
  mkWorld (readyState w) (resultados w) (remove_all fs (disk w)) (res_headers w)
    (res_sent w) (trace w ++ unlinks fs)%list.

(** The images handed to the OCR provider in a trace. *)
Fixpoint ocr_images (t : list Event) : list string :=
  match t with
  | [] => []
  | EvOcr image :: t' => image :: ocr_images t'
  | _ :: t' => ocr_images t'
  end.

(** [findOne] calls in a trace. *)
Fixpoint lookups (t : list Event) : nat :=
  match t with
  | [] => 0
  | EvFindOne _ :: t' => S (lookups t')
  | _ :: t' => lookups t'
  end.

(** The [shareId] the GET handler reads from the query. *)
Definition query_shareId (req : ResultStore.Request) : JsValue :=
  default JUndefined (assoc "shareId" (ResultStore.req_query req)).

Definition missing_shareId_response : Response :=
  mkResponse 400%N (error_body "Falta el parámetro shareId.").

(** The successful responses. *)
Definition direct_exam (examen : JsValue) : Response :=
  mkResponse 200%N
    (Json (JObj [("message", JStr "Examen generado exitosamente."); ("examen", examen)])).

Definition multi_exam (examen : JsValue) : Response := mkResponse 200%N (Json examen).

Definition ocr_exam (examType : string) (examen : JsValue) : Response :=
  mkResponse 200%N
    (Json (JObj [("status", JStr "Examen generado exitosamente (Serverless)");
                 ("tipo_solicitado", JStr examType);
                 ("examen", examen)])).

(** The disk after formidable wrote the uploads of a form. *)
Definition uploaded (form : Form) (w : World) : gmap string string :=
  write_files (all_files form) (disk w).

(** Requests and environments for the runs at the end of the file. *)
Definition bodyless_request : ResultStore.Request :=
  ResultStore.mkRequest "POST" JUndefined [].

Definition idless_request : ResultStore.Request :=
  ResultStore.mkRequest "GET" JUndefined [("shareId", JStr "")].

Definition unreachable_env : ResultStore.Env :=
  ResultStore.mkEnv None (Some (mkExn "MongoNetworkError" "connection timed out"))
    "0.4fzyo82mvyr" 1700000000000 "651f0c2ab7e4".

Definition two_images_form : Form :=
  mkForm [("exam_type", Many ["10 preguntas"])]
    [("files", Many [one_image; mkFile "/tmp/upload_2" None "JPG"]);
     ("extra", Many [mkFile "/tmp/upload_3" (Some "text/plain") "TXT"])].

Definition two_images_ok_env : Env :=
  mkEnv (inr two_images_form) "/tmp" true (inr None) (inr (Some "{}")).

Definition quota_env : Env :=
  mkEnv (inr two_images_form) "/tmp" true (inr None)
    (inl (mkExn "Error" "429 quota exceeded")).

Definition post : Request := mkRequest "POST".

Definition broken_upload_env : Env :=
  mkEnv (inl (mkExn "Error" "maxFileSize exceeded")) "/tmp" true (inr None) (inr None).

Definition ocr_down_env : Env :=
  mkEnv (inr ocr_form) "/tmp" true (inl (mkExn "Error" "PERMISSION_DENIED")) (inr None).

End Coverage.

(** * Reasoning about computations *)

Module EffLemmas.

Section Rules.
Context {S : Type}.

Lemma wp_ret {A} (a : A) (Q : Result A -> S -> Prop) w : Q (Val a) w -> wp (ret a) Q w.
Proof. done. Qed.

Lemma wp_throw {A} e (Q : Result A -> S -> Prop) w : Q (Thrown e) w -> wp (throw e) Q w.
Proof. done. Qed.

Lemma wp_gets {A} (f : S -> A) (Q : Result A -> S -> Prop) w : Q (Val (f w)) w -> wp (gets f) Q w.
Proof. done. Qed.

Lemma wp_modify (f : S -> S) (Q : Result unit -> S -> Prop) w : Q (Val tt) (f w) -> wp (modify f) Q w.
Proof. done. Qed.

Lemma wp_bind {A B} (m : M S A) (k : A -> M S B) (Q : Result B -> S -> Prop) w :
  wp m (fun r w' => match r with Val a => wp (k a) Q w' | Thrown e => Q (Thrown e) w' end) w ->
  wp (bind m k) Q w.
Proof. unfold wp, bind. by destruct (m w) as [[a|e] w']. Qed.

Lemma wp_try_catch {A} (m : M S A) (h : Exn -> M S A) (Q : Result A -> S -> Prop) w :
  wp m (fun r w' => match r with Val a => Q (Val a) w' | Thrown e => wp (h e) Q w' end) w ->
  wp (try_catch m h) Q w.
Proof. unfold wp, try_catch. by destruct (m w) as [[a|e] w']. Qed.

Lemma wp_try_finally {A} (m : M S A) (f : M S unit) (Q : Result A -> S -> Prop) w :
  wp m (fun r w' =>
          wp f (fun r' w'' => match r' with Val _ => Q r w'' | Thrown e => Q (Thrown e) w'' end) w') w ->
  wp (try_finally m f) Q w.
Proof.
  unfold wp, try_finally. destruct (m w) as [r w']. simpl.
  by destruct (f w') as [[[]|e] w''].
Qed.

Lemma wp_lift {A} (r : Exn + A) (Q : Result A -> S -> Prop) w :
  match r with inl e => Q (Thrown e) w | inr a => Q (Val a) w end -> wp (lift r) Q w.
Proof. by destruct r. Qed.

(** Consequence: a stronger postcondition may replace a weaker one. *)
Lemma wp_mono {A} (m : M S A) (Q Q' : Result A -> S -> Prop) w :
  wp m Q w -> (forall r w', Q r w' -> Q' r w') -> wp m Q' w.
Proof. unfold wp. auto. Qed.

End Rules.

Lemma wp_log e (Q : Result unit -> World -> Prop) w : Q (Val tt) (emit e w) -> wp (log e) Q w.
Proof. done. Qed.

Lemma wp_console_error what e (Q : Result unit -> World -> Prop) w :
  Q (Val tt) (emit (EvConsoleError what (message e)) w) -> wp (console_error what e) Q w.
Proof. done. Qed.

Lemma wp_setHeader k v (Q : Result unit -> World -> Prop) w :
  Q (Val tt) (add_header (k, v) w) -> wp (setHeader k v) Q w.
Proof. done. Qed.

Lemma wp_respond code b (Q : Result unit -> World -> Prop) w :
  res_sent w = None -> Q (Val tt) (set_sent (mkResponse code b) w) -> wp (respond code b) Q w.
Proof. unfold wp, respond. by intros ->. Qed.

Lemma wp_invoke (h : M World unit) (Q : Result unit -> World -> Prop) w :
  wp h Q (fresh_res w) -> wp (invoke h) Q w.
Proof. done. Qed.

(** The cell of a local variable. *)
Lemma wp_lift_local {L S A} (m : M S A) (Q : Result A -> L * S -> Prop) ls :
  wp m (fun r s' => Q r (fst ls, s')) (snd ls) -> wp (lift_local m) Q ls.
Proof. unfold wp, lift_local. by destruct (m (snd ls)). Qed.

Lemma wp_set_local {L S} (l : L) (Q : Result unit -> L * S -> Prop) ls :
  Q (Val tt) (l, snd ls) -> wp (set_local l) Q ls.
Proof. done. Qed.

Lemma wp_get_local {L S} (Q : Result L -> L * S -> Prop) ls :
  Q (Val (fst ls)) ls -> wp get_local Q ls.
Proof. done. Qed.

Lemma wp_run_local {L S A} (l0 : L) (m : M (L * S) A) (Q : Result A -> S -> Prop) s :
  wp m (fun r ls => Q r (snd ls)) (l0, s) -> wp (run_local l0 m) Q s.
Proof. unfold wp, run_local. by destruct (m (l0, s)). Qed.

(** The events of a run, read off the trace it extended. *)
Lemma drop_trace_app (t evs : list Event) : drop (length t) (t ++ evs) = evs.
Proof. apply drop_app_length. Qed.

Lemma drop_trace_self (t : list Event) : drop (length t) t = [].
Proof. by apply drop_all. Qed.

(** Projections of a state built by the setters. *)
Ltac world_simpl :=
  cbn [res_sent resultados readyState trace disk res_headers
       set_sent emit fresh_res set_readyState set_resultados set_disk add_header
       fst snd] in *.

(** One step of symbolic execution of the computation in the goal. *)
Ltac wp_step :=
  lazymatch goal with
  | |- wp (bind _ _) _ _ => apply wp_bind
  | |- wp (try_catch _ _) _ _ => apply wp_try_catch
  | |- wp (try_finally _ _) _ _ => apply wp_try_finally
  | |- wp (ret _) _ _ => apply wp_ret
  | |- wp (throw _) _ _ => apply wp_throw
  | |- wp (gets _) _ _ => apply wp_gets
  | |- wp (modify _) _ _ => apply wp_modify
  | |- wp (lift _) _ _ => apply wp_lift
  | |- wp (log _) _ _ => apply wp_log
  | |- wp (console_error _ _) _ _ => apply wp_console_error
  | |- wp (setHeader _ _) _ _ => apply wp_setHeader
  | |- wp (respond _ _) _ _ =>
      apply wp_respond;
      [cbn [res_sent set_sent emit set_disk set_readyState set_resultados add_header fresh_res];
       first [reflexivity | eassumption] |]
  | |- wp (invoke _) _ _ => apply wp_invoke
  | |- wp (lift_local _) _ _ => apply wp_lift_local
  | |- wp (set_local _) _ _ => apply wp_set_local
  | |- wp get_local _ _ => apply wp_get_local
  | |- wp (run_local _ _) _ _ => apply wp_run_local
  | |- wp (if ?b then _ else _) _ _ => destruct b eqn:?
  | |- wp (match ?x with _ => _ end) _ _ => destruct x eqn:?
  | |- match ?x with _ => _ end => destruct x eqn:?
  end; cbn beta iota; cbn [fst snd].

Ltac wp_run := repeat wp_step.

End EffLemmas.

(** * Properties of the result store *)

Module ResultStoreProps.
Import ResultStore.
Import EffLemmas.

Lemma connections_established_app t1 t2 :
  connections_established (t1 ++ t2) = connections_established t1 + connections_established t2.
Proof.
  induction t1 as [|e t1 IH]; simpl; [done|].
  destruct e as [[]| | | | | | | | |]; simpl; rewrite ?IH; lia.
Qed.

(** *** The shape of a generated id *)

Lemma upper_char_digit c : is_radix36_digit c = true -> is_upper_alnum (upper_char c) = true.
Proof.
  destruct c as [[] [] [] [] [] [] [] []]; vm_compute; intros; congruence.
Qed.

Lemma toUpperCase_digits s :
  all_chars is_radix36_digit s = true -> all_chars is_upper_alnum (toUpperCase s) = true.
Proof.
  induction s as [|c s IH]; simpl; [done|].
  intros [Hc Hs]%andb_prop. rewrite upper_char_digit, IH; done.
Qed.

Lemma toUpperCase_length s : String.length (toUpperCase s) = String.length s.
Proof. induction s; simpl; congruence. Qed.

Lemma all_chars_substring p n m s :
  all_chars p s = true -> all_chars p (substring n m s) = true.
Proof.
  revert n m. induction s as [|c s IH]; intros [|n] [|m]; simpl; try done.
  - intros [Hc Hs]%andb_prop. rewrite Hc. simpl. by apply IH.
  - intros [Hc Hs]%andb_prop. by apply IH.
  - intros [Hc Hs]%andb_prop. by apply IH.
Qed.

Lemma substring_length_full m s :
  m <= String.length s -> String.length (substring 0 m s) = m.
Proof.
  revert m. induction s as [|c s IH]; intros [|m]; simpl; try lia.
  intros. rewrite IH; lia.
Qed.

(** Whatever the rendering, the id is [R_] followed by at most six
    characters; on a rendering of a number of [0, 1) they are upper-case
    base-36 digits, and there are six of them exactly when the rendering
    has at least six digits after the point. *)
Lemma generateUniqueId_shape ds :
  all_chars is_radix36_digit ds = true ->
  exists t, generateUniqueId (String "0" (String "." ds)) = String "R" (String "_" t)
            /\ String.length t = Nat.min 6 (String.length ds)
            /\ all_chars is_upper_alnum t = true.
Proof.
  intros Hds. exists (toUpperCase (substring 0 6 ds)). split; [reflexivity|]. split.
  - rewrite toUpperCase_length.
    destruct (Nat.le_gt_cases 6 (String.length ds)) as [Hle|Hgt].
    + rewrite substring_length_full by done. lia.
    + do 6 (destruct ds as [|? ds]; [reflexivity|]). simpl in Hgt. lia.
  - apply toUpperCase_digits. by apply all_chars_substring.
Qed.

Lemma generateUniqueId_six ds :
  all_chars is_radix36_digit ds = true -> 6 <= String.length ds ->
  matches_shareId (generateUniqueId (String "0" (String "." ds))) = true.
Proof.
  intros Hds Hlen.
  destruct (generateUniqueId_shape ds Hds) as (t & -> & Hl & Ht).
  simpl. rewrite Hl, Ht. replace (Nat.min 6 (String.length ds)) with 6 by lia. done.
Qed.

(** C3. The id generator is meant to produce [R_] and six upper-case
    base-36 characters.  When [Math.random()] returns one half, its
    radix-36 rendering is [0.i], [substring(2, 8)] finds a single character
    and the id is [R_I], which does not match [R_[A-Z0-9]{6}]. *)
Theorem generateUniqueId_short_rendering :
  is_rendering "0.i" = true
  /\ generateUniqueId "0.i" = "R_I"
  /\ matches_shareId (generateUniqueId "0.i") = false
  /\ generateUniqueId "0" = "R_".
Proof. repeat split. Qed.

Section WithCast.

Variable cast : SchemaType -> JsValue -> option JsValue.

(** *** The connection *)

Lemma wp_connectToDatabase env (Q : Result unit -> World -> Prop) w :
  (readyState w <> 0 -> Q (Val tt) w) ->
  (readyState w = 0 -> connectOutcome env = None ->
   Q (Val tt) (emit (EvConnect true) (set_readyState 1 w))) ->
  (forall e, readyState w = 0 -> connectOutcome env = Some e ->
   Q (Thrown (Error "No se pudo conectar a la base de datos."))
     (emit (EvConsoleError "Error al conectar a MongoDB:" (message e))
        (emit (EvConnect false) w))) ->
  wp (connectToDatabase env) Q w.
Proof.
  intros Hup Hok Hfail. unfold connectToDatabase, mongoose_connect.
  wp_step. wp_step. destruct (readyState w) eqn:Hrs; simpl.
  - destruct (connectOutcome env) eqn:Hc; wp_run; auto.
  - wp_run. auto.
Qed.

Lemma wp_connectToDatabase_get env (Q : Result unit -> World -> Prop) w :
  (readyState w <> 0 -> Q (Val tt) w) ->
  (readyState w = 0 -> connectOutcome env = None ->
   Q (Val tt) (emit (EvConnect true) (set_readyState 1 w))) ->
  (forall e, readyState w = 0 -> connectOutcome env = Some e ->
   Q (Thrown e) (emit (EvConnect false) w)) ->
  wp (connectToDatabase_get env) Q w.
Proof.
  intros Hup Hok Hfail. unfold connectToDatabase_get, mongoose_connect.
  wp_step. wp_step. destruct (readyState w) eqn:Hrs; simpl.
  - destruct (connectOutcome env) eqn:Hc; wp_run; auto.
  - wp_run. auto.
Qed.

(** The handlers as goals of the symbolic execution. *)
Ltac run_store :=
  repeat first
    [ apply wp_connectToDatabase; [intros ?|intros ? ?|intros ? ? ?]
    | apply wp_connectToDatabase_get; [intros ?|intros ? ?|intros ? ? ?]
    | wp_step
    | progress unfold save, insertOne, findOne ].

Ltac enter_guardar Hm :=
  unfold guardar_resultado, guardar_body; wp_step;
  rewrite Hm; change (negb ("POST" =? "POST")) with false; cbn iota.

Ltac enter_obtener Hm :=
  unfold obtener_resultado, obtener_body; wp_step;
  rewrite Hm; change (negb ("GET" =? "GET")) with false; cbn iota.

Ltac use_payload :=
  unfold some_field_falsy, payload_field in *;
  repeat match goal with
         | H : get_prop ?b ?k = _ |- context [get_prop ?b ?k] => rewrite H
         end.

Ltac contradict_env :=
  match goal with
  | H : ?x = Some _, H' : ?x = None |- _ => rewrite H' in H; discriminate H
  | H : ?x = 0, H' : ?x <> 0 |- _ => destruct (H' H)
  | H : Some _ = None |- _ => discriminate H
  | H : None = Some _ |- _ => discriminate H
  end.

(** *** Validation in the save handler *)

Lemma nullish_falsy v : nullish v = true -> truthy v = false.
Proof. by destruct v. Qed.

Lemma some_field_missing_falsy req :
  some_field_missing req = true -> some_field_falsy req = true.
Proof.
  unfold some_field_missing, some_field_falsy. intros H.
  repeat match goal with
         | H : (_ || _) = true |- _ => apply orb_prop in H; destruct H
         end;
    match goal with H : nullish _ = true |- _ => rewrite (nullish_falsy _ H) end;
    simpl; rewrite ?orb_true_r; done.
Qed.

Lemma get_prop_payload req k :
  nullish (req_body req) = false -> get_prop (req_body req) k = inr (payload_field req k).
Proof. unfold payload_field. by destruct (req_body req). Qed.

(** With the connection available and a body that can be destructured, the
    handler answers 400 exactly when one of the four fields is falsy. *)
Lemma guardar_400_iff_falsy env req w :
  method req = "POST" -> connection_available env w ->
  nullish (req_body req) = false ->
  res_sent (snd (guardar_resultado cast env req w)) = Some missing_fields_response
  <-> some_field_falsy req = true.
Proof.
  intros Hm Hc Hb.
  change (wp (guardar_resultado cast env req)
            (fun _ w' => res_sent w' = Some missing_fields_response
                         <-> some_field_falsy req = true) w).
  enter_guardar Hm.
  rewrite !(get_prop_payload _ _ Hb).
  fold (some_field_falsy req).
  run_store; world_simpl.
  all: try (destruct Hc; contradict_env).
  all: try (split; [done|done]).
  all: split; [discriminate|unfold some_field_falsy; intros Hf; rewrite Hf in *; discriminate].
Qed.

(** A field that is absent or null is rejected with the 400 response. *)
Lemma guardar_missing_field_400 env req w :
  method req = "POST" -> connection_available env w ->
  nullish (req_body req) = false ->
  some_field_missing req = true ->
  res_sent (snd (guardar_resultado cast env req w)) = Some missing_fields_response.
Proof.
  intros Hm Hc Hb Hmiss. apply guardar_400_iff_falsy; try done.
  by apply some_field_missing_falsy.
Qed.

(** C2. The save handler is meant to reject a payload exactly when one of
    the four fields is absent or null.  Its test is on truthiness: a
    payload whose score is the number 0, with all four fields present and
    non-null, gets the 400 missing-field response. *)
Theorem guardar_rejects_zero_score env w :
  connection_available env w ->
  some_field_missing zero_score_request = false
  /\ res_sent (snd (guardar_resultado cast env zero_score_request w))
     = Some missing_fields_response.
Proof.
  intros Hc. split; [reflexivity|].
  apply guardar_400_iff_falsy; done.
Qed.

(** *** Atomicity and order of the save handler *)

(** C9. Whenever the save handler answers 400, the collection is the one
    it found: nothing was inserted. *)
Theorem guardar_400_leaves_collection env req w r :
  res_sent (snd (guardar_resultado cast env req w)) = Some r ->
  status r = 400%N ->
  resultados (snd (guardar_resultado cast env req w)) = resultados w.
Proof.
  change (wp (guardar_resultado cast env req)
            (fun _ w' => res_sent w' = Some r -> status r = 400%N ->
                         resultados w' = resultados w) w).
  unfold guardar_resultado, guardar_body. run_store; world_simpl.
  all: try done.
  all: intros [= <-]; simpl; discriminate.
Qed.

Ltac events_simpl :=
  unfold new_events in *; world_simpl;
  rewrite <- ?app_assoc in *;
  rewrite ?drop_trace_app, ?drop_trace_self in *;
  cbn [app connect_failures connections_established] in *.

(** C10. The connection comes first: for every POST that arrives without
    a connection in place and whose attempt to connect fails, the save
    handler makes that one attempt and answers with the 500 store error
    that reports the failed connection, whatever the body holds (also a
    body without the required fields: the 400 response is not reached),
    and the collection is untouched. *)
Theorem guardar_connect_failure_500 env req w e :
  method req = "POST" -> readyState w = 0 -> connectOutcome env = Some e ->
  fst (guardar_resultado cast env req w) = Val tt
  /\ res_sent (snd (guardar_resultado cast env req w))
     = Some (save_failed_response "No se pudo conectar a la base de datos.")
  /\ resultados (snd (guardar_resultado cast env req w)) = resultados w
  /\ connect_failures (new_events w (snd (guardar_resultado cast env req w))) = 1.
Proof.
  intros Hm Hrs Hc.
  change (wp (guardar_resultado cast env req)
            (fun r w' =>
               r = Val tt
               /\ res_sent w' = Some (save_failed_response "No se pudo conectar a la base de datos.")
               /\ resultados w' = resultados w
               /\ connect_failures (new_events w w') = 1) w).
  enter_guardar Hm.
  run_store; events_simpl.
  all: try contradict_env.
  all: done.
Qed.

(** *** Lookup by share id *)

(** The lookup with the connection available and the driver reaching the
    server: no exception, the collection unchanged, and the response
    decided by the collection alone. *)
Lemma obtener_lookup env req w s :
  method req = "GET" -> assoc "shareId" (req_query req) = Some (JStr s) -> s <> "" ->
  connection_available env w -> driverOutcome env = None ->
  fst (obtener_resultado cast env req w) = Val tt
  /\ resultados (snd (obtener_resultado cast env req w)) = resultados w
  /\ res_sent (snd (obtener_resultado cast env req w))
     = Some (match resultados w !! s with
             | Some d => found_response d
             | None => not_found_response
             end).
Proof.
  intros Hm Hq Hs Hc Hd.
  change (wp (obtener_resultado cast env req)
            (fun r w' => r = Val tt /\ resultados w' = resultados w
                         /\ res_sent w' = Some (match resultados w !! s with
                                                | Some d => found_response d
                                                | None => not_found_response
                                                end)) w).
  assert (Ht : truthy (JStr s) = true) by (by destruct s).
  enter_obtener Hm. rewrite Hq. cbn [default from_option id]. rewrite Ht. cbn [negb].
  unfold findOne. cbn [filter_id].
  run_store; world_simpl.
  all: try (destruct Hc; contradict_env).
  all: try contradict_env.
  all: cbn [mbind option_bind] in *.
  all: match goal with H : _ !! _ = _ |- _ => rewrite H end; done.
Qed.

(** The handler never lets an exception escape and always responds. *)
Lemma obtener_total env req w :
  fst (obtener_resultado cast env req w) = Val tt
  /\ is_Some (res_sent (snd (obtener_resultado cast env req w)))
  /\ resultados (snd (obtener_resultado cast env req w)) = resultados w.
Proof.
  change (wp (obtener_resultado cast env req)
            (fun r w' => r = Val tt /\ is_Some (res_sent w') /\ resultados w' = resultados w) w).
  unfold obtener_resultado, obtener_body. run_store; world_simpl.
  all: by eauto.
Qed.

(** C7. The GET handler never throws to its caller and always sends a
    response.  For a GET with a non-empty share id, the connection
    available and the driver reaching the server, an id without a stored
    document gets the 404 response with its error body, and an id with a
    stored document gets the 200 response that carries the whole document;
    the collection is left as it was. *)
Theorem obtener_find_by_id env req w :
  fst (obtener_resultado cast env req w) = Val tt
  /\ is_Some (res_sent (snd (obtener_resultado cast env req w)))
  /\ resultados (snd (obtener_resultado cast env req w)) = resultados w
  /\ forall s,
       method req = "GET" -> assoc "shareId" (req_query req) = Some (JStr s) -> s <> "" ->
       connection_available env w -> driverOutcome env = None ->
       (resultados w !! s = None ->
        res_sent (snd (obtener_resultado cast env req w)) = Some not_found_response)
       /\ (forall d, resultados w !! s = Some d ->
           res_sent (snd (obtener_resultado cast env req w)) = Some (found_response d)).
Proof.
  destruct (obtener_total env req w) as (Hv & Hr & Hc).
  repeat split; try done.
  - intros Hnone. destruct (obtener_lookup env req w s) as (_ & _ & ->); try done.
    by rewrite Hnone.
  - intros d Hsome. destruct (obtener_lookup env req w s) as (_ & _ & ->); try done.
    by rewrite Hsome.
Qed.

(** *** The connection is set up once *)

Ltac connection_leaf :=
  unfold connection_step; world_simpl;
  rewrite ?connections_established_app; cbn [connections_established];
  split; intros; try congruence; try (split; [done|lia]);
  first [ left; split; [done|lia] | right; split; [done|lia] ].

Lemma guardar_connection_step env req w :
  connection_step w (snd (guardar_resultado cast env req w)).
Proof.
  change (wp (guardar_resultado cast env req) (fun _ w' => connection_step w w') w).
  unfold guardar_resultado, guardar_body. run_store.
  all: connection_leaf.
Qed.

Lemma obtener_connection_step env req w :
  connection_step w (snd (obtener_resultado cast env req w)).
Proof.
  change (wp (obtener_resultado cast env req) (fun _ w' => connection_step w w') w).
  unfold obtener_resultado, obtener_body. run_store.
  all: connection_leaf.
Qed.

Lemma run_call_connection_step c w : connection_step w (run_call cast c w).
Proof.
  destruct c; [apply guardar_connection_step|apply obtener_connection_step].
Qed.

Lemma run_calls_connection_inv base cs w :
  connection_inv base w -> connection_inv base (run_calls cast cs w).
Proof.
  revert w. induction cs as [|c cs IH]; intros w Hinv; [done|].
  simpl. apply IH.
  destruct (run_call_connection_step c w) as [Hup Hdown].
  destruct Hinv as [[Hrs Hn]|[Hrs Hn]].
  - destruct (Hdown Hrs) as [[Hrs' Hn']|[Hrs' Hn']].
    + left. split; [done|lia].
    + right. split; [lia|lia].
  - destruct (Hup Hrs) as [Hrs' Hn']. right. split; [congruence|lia].
Qed.

(** C8. Setting up the connection is idempotent: with a connection in
    place, [connectToDatabase] (in either file) returns at once, leaving
    the process state and the trace as they were, so no attempt is made;
    and over every sequence of invocations of the two handlers in a
    process that starts disconnected, at most one connection is
    established. *)
Theorem connectToDatabase_idempotent :
  (forall env w, readyState w <> 0 ->
     connectToDatabase env w = (Val tt, w)
     /\ connectToDatabase_get env w = (Val tt, w))
  /\ (forall calls,
        connections_established (trace (run_calls cast calls initial)) <= 1).
Proof.
  split.
  - intros env w Hrs. unfold connectToDatabase, connectToDatabase_get, bind, gets, ret.
    destruct (readyState w); done.
  - intros calls.
    destruct (run_calls_connection_inv 0 calls initial) as [[_ Hn]|[_ Hn]].
    + by left.
    + rewrite Hn. lia.
    + done.
Qed.

(** *** Round trip *)

Lemma validate_inr r d :
  validate r = inr d ->
  exists p a t e,
    r_puntuacion r = Some p /\ r_respuestas r = Some a
    /\ r_totalPreguntas r = Some t /\ r_examen r = Some e
    /\ d = mkDoc (r_id r) (r_uniqueId r) (r_timestamp r) p a t e.
Proof.
  unfold validate.
  destruct (r_puntuacion r) as [p|], (r_respuestas r) as [a|],
    (r_totalPreguntas r) as [t|], (r_examen r) as [e|]; try discriminate.
  intros [= <-]. by exists p, a, t, e.
Qed.

(** What a 201 response tells: the share id is the generated one, the
    connection is up, and the collection holds under that id the document
    made of the cast payload. *)
Lemma guardar_saved env req w id :
  res_sent (snd (guardar_resultado cast env req w)) = Some (saved_response id) ->
  id = generateUniqueId (randomText env)
  /\ readyState (snd (guardar_resultado cast env req w)) <> 0
  /\ exists p a t e,
       cast SNumber (payload_field req "puntuacion") = Some p
       /\ cast SMixed (payload_field req "respuestas") = Some a
       /\ cast SNumber (payload_field req "totalPreguntas") = Some t
       /\ cast SArray (payload_field req "examen") = Some e
       /\ resultados (snd (guardar_resultado cast env req w)) !! id
          = Some (mkDoc (newObjectId env) id (now env) p a t e).
Proof.
  change (wp (guardar_resultado cast env req)
            (fun _ w' =>
               res_sent w' = Some (saved_response id) ->
               id = generateUniqueId (randomText env)
               /\ readyState w' <> 0
               /\ exists p a t e,
                    cast SNumber (payload_field req "puntuacion") = Some p
                    /\ cast SMixed (payload_field req "respuestas") = Some a
                    /\ cast SNumber (payload_field req "totalPreguntas") = Some t
                    /\ cast SArray (payload_field req "examen") = Some e
                    /\ resultados w' !! id
                       = Some (mkDoc (newObjectId env) id (now env) p a t e)) w).
  unfold guardar_resultado, guardar_body. run_store; world_simpl.
  all: try discriminate.
  all: intros [= <-].
  all: match goal with H : validate _ = inr _ |- _ =>
         apply validate_inr in H; destruct H as (p & a & t & e & Hp & Ha & Ht & He & ->)
       end.
  all: cbn [new_Resultado r_puntuacion r_respuestas r_totalPreguntas r_examen
            r_id r_uniqueId r_timestamp uniqueId] in *.
  all: use_payload.
  all: split; [done|]; split; [done|]; exists p, a, t, e.
  all: by rewrite lookup_insert_eq.
Qed.

(** No handler removes or replaces a stored document. *)
Lemma guardar_keeps_documents env req w id d :
  resultados w !! id = Some d ->
  resultados (snd (guardar_resultado cast env req w)) !! id = Some d.
Proof.
  change (wp (guardar_resultado cast env req)
            (fun _ w' => resultados w !! id = Some d -> resultados w' !! id = Some d) w).
  unfold guardar_resultado, guardar_body. run_store; world_simpl.
  all: try done.
  all: intros Hd; rewrite lookup_insert_ne; [done|].
  all: intros <-; rewrite Hd in *; discriminate.
Qed.

Lemma run_calls_keep env_calls w id d :
  resultados w !! id = Some d -> readyState w <> 0 ->
  resultados (run_calls cast env_calls w) !! id = Some d
  /\ readyState (run_calls cast env_calls w) <> 0.
Proof.
  revert w. induction env_calls as [|c cs IH]; intros w Hd Hrs; [done|].
  simpl. apply IH.
  - destruct c as [env req|env req]; simpl.
    + by apply guardar_keeps_documents.
    + destruct (obtener_total env req w) as (_ & _ & ->). done.
  - destruct (run_call_connection_step c w) as [Hup _].
    destruct (Hup Hrs) as [-> _]. done.
Qed.

Lemma generateUniqueId_nonempty s : generateUniqueId s <> "".
Proof. done. Qed.


End WithCast.

(** *** The theorems at concrete requests *)



Lemma guardar_rejects_zero_score_witness :
  some_field_missing zero_score_request = false
  /\ res_sent (snd (guardar_resultado identity_cast sample_env zero_score_request initial))
     = Some missing_fields_response.
Proof.
  apply (guardar_rejects_zero_score identity_cast sample_env initial).
  right. reflexivity.
Defined.

Lemma obtener_find_by_id_witness :
  res_sent (snd (obtener_resultado identity_cast sample_env (lookup_request "R_ABC123") initial))
  = Some not_found_response.
Proof.
  destruct (obtener_find_by_id identity_cast sample_env (lookup_request "R_ABC123") initial)
    as (_ & _ & _ & H).
  assert (Hs : "R_ABC123" <> "") by discriminate.
  destruct (H "R_ABC123" eq_refl eq_refl Hs (or_intror eq_refl) eq_refl) as [Hnone _].
  apply Hnone. reflexivity.
Defined.

Lemma connectToDatabase_idempotent_witness :
  connectToDatabase offline_env (set_readyState 1 initial) = (Val tt, set_readyState 1 initial)
  /\ connections_established
       (trace (run_calls identity_cast
                 [CallGuardar sample_env sample_request;
                  CallObtener later_env (lookup_request "R_4FZYO8");
                  CallGuardar later_env sample_request] initial)) <= 1.
Proof.
  destruct (connectToDatabase_idempotent identity_cast) as [Hidem Hone].
  split.
  - apply (Hidem offline_env (set_readyState 1 initial)). discriminate.
  - apply Hone.
Defined.

Lemma guardar_400_leaves_collection_witness :
  resultados (snd (guardar_resultado identity_cast sample_env incomplete_request initial))
  = resultados initial.
Proof.
  apply (guardar_400_leaves_collection identity_cast sample_env incomplete_request initial
           missing_fields_response); reflexivity.
Defined.

Lemma guardar_connect_failure_500_witness :
  fst (guardar_resultado identity_cast offline_env incomplete_request initial) = Val tt
  /\ res_sent (snd (guardar_resultado identity_cast offline_env incomplete_request initial))
     = Some (save_failed_response "No se pudo conectar a la base de datos.")
  /\ resultados (snd (guardar_resultado identity_cast offline_env incomplete_request initial))
     = resultados initial
  /\ connect_failures
       (new_events initial
          (snd (guardar_resultado identity_cast offline_env incomplete_request initial))) = 1.
Proof.
  apply (guardar_connect_failure_500 identity_cast offline_env incomplete_request initial
           (mkExn "MongooseServerSelectionError" "connect ECONNREFUSED"));
    reflexivity.
Defined.

End ResultStoreProps.

(** * Properties of the exam-generation handlers *)

Module ExamPipelineProps.
Import ExamPipeline.
Import EffLemmas.

Lemma provider_calls_app t1 t2 :
  provider_calls (t1 ++ t2) = provider_calls t1 + provider_calls t2.
Proof.
  induction t1 as [|e t1 IH]; simpl; [done|]. destruct e; simpl; rewrite ?IH; lia.
Qed.

Lemma generate_requests_app t1 t2 :
  generate_requests (t1 ++ t2) = (generate_requests t1 ++ generate_requests t2)%list.
Proof.
  induction t1 as [|e t1 IH]; simpl; [done|]. destruct e; simpl; rewrite ?IH; done.
Qed.

Lemma unlink_count_app p t1 t2 :
  unlink_count p (t1 ++ t2) = unlink_count p t1 + unlink_count p t2.
Proof.
  induction t1 as [|e t1 IH]; simpl; [done|]. destruct e; simpl; rewrite ?IH; lia.
Qed.

Lemma assoc_map_snd {A B} (g : A -> B) k (l : list (string * A)) :
  assoc k (map (fun kv => (fst kv, g (snd kv))) l) = g <$> assoc k l.
Proof.
  induction l as [|[k' v] l IH]; simpl; [done|]. by destruct (String.eqb k k').
Qed.

Ltac events_simpl :=
  unfold new_events in *; world_simpl;
  rewrite <- ?app_assoc in *;
  rewrite ?drop_trace_app, ?drop_trace_self in *;
  rewrite ?provider_calls_app, ?generate_requests_app, ?unlink_count_app in *;
  cbn [app provider_calls generate_requests unlink_count] in *.

Section WithRuntime.

Variable JSON_parse : string -> option JsValue.
Variable trim : string -> string.

Ltac run_exam :=
  repeat first
    [ wp_step
    | progress unfold form_parse, parseForm, readFile, unlinkSync, generateContent,
        documentTextDetection ].

Tactic Notation "run_exam_with" tactic3(tac) :=
  repeat first
    [ progress tac
    | wp_step
    | progress unfold form_parse, parseForm, readFile, unlinkSync, generateContent,
        documentTextDetection ].

Ltac enter_post Hm :=
  rewrite Hm; change (negb ("POST" =? "POST")) with false;
  try change ("POST" =? "OPTIONS") with false; cbn iota.

(** *** No material, no provider call *)

Lemma materials_nil_assoc key form :
  materials key form = [] ->
  assoc key (form_files form) = None \/ assoc key (form_files form) = Some (Many []).
Proof.
  unfold materials. destruct (assoc key (form_files form)) as [[f|l]|]; simpl; auto.
  - discriminate.
  - intros ->. auto.
Qed.

(** C5. A POST whose form carries no material under the handler's key is
    answered 400 by each of the three exam-generation handlers, after the
    form was parsed and before any call to the OCR or the generation
    provider: the run contains no provider call. *)
Theorem no_material_no_provider_call env req w form :
  method req = "POST" -> parseOutcome env = inr form ->
  (materials "files" form = [] ->
   fst (direct_handler JSON_parse trim env req w) = Val tt
   /\ res_sent (snd (direct_handler JSON_parse trim env req w)) = Some direct_no_material
   /\ provider_calls (new_events w (snd (direct_handler JSON_parse trim env req w))) = 0)
  /\ (materials "files" form = [] ->
      fst (multi_handler JSON_parse trim env req w) = Val tt
      /\ res_sent (snd (multi_handler JSON_parse trim env req w)) = Some multi_no_material
      /\ provider_calls (new_events w (snd (multi_handler JSON_parse trim env req w))) = 0)
  /\ (materials "file" form = [] ->
      fst (ocr_handler JSON_parse env req w) = Val tt
      /\ res_sent (snd (ocr_handler JSON_parse env req w)) = Some ocr_no_material
      /\ provider_calls (new_events w (snd (ocr_handler JSON_parse env req w))) = 0).
Proof.
  intros Hm Hp. split; [|split].
  all: intros Hnone; apply materials_nil_assoc in Hnone.
  - change (wp (direct_handler JSON_parse trim env req)
              (fun r w' => r = Val tt /\ res_sent w' = Some direct_no_material
                           /\ provider_calls (new_events w w') = 0) w).
    unfold direct_handler, direct_body. wp_step. enter_post Hm.
    unfold form_parse. rewrite Hp.
    destruct Hnone as [Hn|Hn]; run_exam; rewrite Hn in *; try discriminate; events_simpl; done.
  - change (wp (multi_handler JSON_parse trim env req)
              (fun r w' => r = Val tt /\ res_sent w' = Some multi_no_material
                           /\ provider_calls (new_events w w') = 0) w).
    unfold multi_handler, multi_body. wp_step. do 6 wp_step. enter_post Hm.
    unfold form_parse, uploaded_files. rewrite Hp.
    destruct Hnone as [Hn|Hn]; run_exam; rewrite Hn in *; try discriminate; events_simpl; done.
  - change (wp (ocr_handler JSON_parse env req)
              (fun r w' => r = Val tt /\ res_sent w' = Some ocr_no_material
                           /\ provider_calls (new_events w w') = 0) w).
    unfold ocr_handler, ocr_body. wp_step. enter_post Hm.
    unfold ocr_try, ocr_finally, parseForm, form_parse. rewrite Hp.
    destruct Hnone as [Hn|Hn];
      (run_exam_with (rewrite ?assoc_map_snd, ?Hn; cbn [fmap option_fmap option_map mbind option_bind first_of_files head]));
      events_simpl; done.
Qed.

(** *** The uploaded files are on disk after the form was parsed *)

Lemma write_files_lookup fs d f :
  f ∈ fs -> is_Some (write_files fs d !! filepath f).
Proof.
  unfold write_files. revert d. induction fs as [|g fs IH] using rev_ind; intros d Hin.
  - by apply elem_of_nil in Hin.
  - rewrite foldl_app. simpl. apply elem_of_app in Hin as [Hin|Hin].
    + destruct (decide (filepath g = filepath f)) as [->|Hne].
      * rewrite lookup_insert_eq. eauto.
      * rewrite lookup_insert_ne by done. by apply IH.
    + apply list_elem_of_singleton in Hin as ->. rewrite lookup_insert_eq. eauto.
Qed.

Lemma assoc_entry_files k (l : list (string * Entry File)) e f :
  assoc k l = Some e -> f ∈ entry_list e ->
  f ∈ concat (map (fun kv => entry_list (snd kv)) l).
Proof.
  induction l as [|[k' v] l IH]; simpl; [done|].
  intros He Hf. apply elem_of_app. destruct (String.eqb k k').
  - injection He as ->. by left.
  - right. by apply IH.
Qed.

Lemma materials_on_disk key form f d :
  f ∈ materials key form -> is_Some (write_files (all_files form) d !! filepath f).
Proof.
  unfold materials. intros Hin. apply write_files_lookup.
  destruct (assoc key (form_files form)) as [e|] eqn:He; [|by apply elem_of_nil in Hin].
  unfold all_files. by eapply assoc_entry_files.
Qed.

(** *** The minimum of extracted text *)

Lemma short_text_iff text :
  negb (nonempty text) || (String.length text <? 50)%nat = true
  <-> String.length text < 50.
Proof.
  unfold nonempty. destruct text as [|c text]; simpl; [split; [lia|done]|].
  rewrite Nat.ltb_lt. done.
Qed.

Lemma bind_fmap_id {A B} (g : A -> option B) (o : option A) :
  (g <$> o) ≫= id = o ≫= g.
Proof. by destruct o. Qed.

(** C6. In the OCR-then-text handler, once the uploaded file was read and
    the OCR provider answered: a text shorter than 50 characters, or no
    text at all, gets the insufficient-text response and the generation
    provider is not called; a text of 50 characters or more is sent to the
    generation provider, once, in the prompt. *)
Theorem ocr_minimum_text env req w form f rest t :
  method req = "POST" -> parseOutcome env = inr form ->
  assoc "file" (form_files form) = Some (Many (f :: rest)) ->
  ocrOutcome env = inr t ->
  (text_length t < 50 ->
   res_sent (snd (ocr_handler JSON_parse env req w)) = Some ocr_insufficient_text
   /\ generate_requests (new_events w (snd (ocr_handler JSON_parse env req w))) = [])
  /\ (50 <= text_length t ->
      exists text,
        t = Some text
        /\ generate_requests (new_events w (snd (ocr_handler JSON_parse env req w)))
           = [ocr_generation form text]).
Proof.
  intros Hm Hp Hf Ho.
  assert (Hdisk : forall d, is_Some (write_files (all_files form) d !! filepath f)).
  { intros d. apply (materials_on_disk "file"). unfold materials. rewrite Hf. left. }
  change (wp (ocr_handler JSON_parse env req)
            (fun _ w' =>
               (text_length t < 50 ->
                res_sent w' = Some ocr_insufficient_text
                /\ generate_requests (new_events w w') = [])
               /\ (50 <= text_length t ->
                   exists text,
                     t = Some text
                     /\ generate_requests (new_events w w') = [ocr_generation form text])) w).
  unfold ocr_handler, ocr_body. wp_step. enter_post Hm.
  unfold ocr_try, ocr_finally, parseForm, form_parse, documentTextDetection, ocr_generation.
  rewrite Hp, Ho.
  run_exam_with
    (rewrite ?assoc_map_snd, ?bind_fmap_id, ?Hf;
     cbn [fmap option_fmap option_map mbind option_bind first_of_files head id]).
  all: world_simpl.
  all: try match goal with
         | Hx : write_files _ ?d !! _ = None |- _ =>
             destruct (Hdisk d) as [? Hy]; rewrite Hy in Hx; discriminate Hx
         end.
  all: events_simpl.
  all: try match goal with
         | Hx : negb (nonempty _) || _ = true |- _ => apply short_text_iff in Hx
         | Hx : negb (nonempty ?s) || _ = false |- _ =>
             assert (50 <= String.length s)
               by (destruct (Nat.lt_ge_cases (String.length s) 50) as [Hlt|];
                   [apply short_text_iff in Hlt; rewrite Hlt in Hx; discriminate Hx|done]);
             clear Hx
         end.
  all: cbn [text_length].
  all: split; intros; try lia; try done; eauto.
Qed.

(** *** Removal of the uploaded files *)

Lemma quiet_refl w : quiet w w.
Proof. split; [done|]. exists []. by rewrite app_nil_r. Qed.

Lemma quiet_trans w1 w2 w3 : quiet w1 w2 -> quiet w2 w3 -> quiet w1 w3.
Proof.
  intros (Hd1 & e1 & Ht1 & Hu1) (Hd2 & e2 & Ht2 & Hu2). split; [congruence|].
  exists (e1 ++ e2)%list. split.
  - rewrite Ht2, Ht1. by rewrite app_assoc.
  - intros p. rewrite unlink_count_app, Hu1, Hu2. done.
Qed.

Lemma quiet_emit e w w' :
  (forall p, unlink_count p [e] = 0) -> quiet w w' -> quiet w (emit e w').
Proof.
  intros He (Hd & evs & Ht & Hu). split; [done|].
  exists (evs ++ [e])%list. split.
  - simpl. rewrite Ht. by rewrite app_assoc.
  - intros p. rewrite unlink_count_app, Hu, He. done.
Qed.

Lemma quiet_set_sent r w w' : quiet w w' -> quiet w (set_sent r w').
Proof. intros (Hd & evs & Ht & Hu). split; [done|]. by exists evs. Qed.

Lemma quiet_add_header h w w' : quiet w w' -> quiet w (add_header h w').
Proof. intros (Hd & evs & Ht & Hu). split; [done|]. by exists evs. Qed.

Ltac quiet_solve :=
  repeat first
    [ eassumption
    | apply quiet_refl
    | apply quiet_set_sent
    | apply quiet_add_header
    | apply quiet_emit; [done|] ].

(** Reading the files into the prompt deletes nothing and sends no
    response. *)
Lemma inline_parts_quiet files w :
  wp (inline_parts files) (fun _ w' => quiet w w' /\ res_sent w' = res_sent w) w.
Proof.
  revert w. induction files as [|file files IH]; intros w; simpl.
  - wp_run. split; [apply quiet_refl|done].
  - wp_step.
    assert (Hhere : wp
      match file with
      | Some f =>
          if nonempty (filepath f)
          then bind (readFile (filepath f)) (fun buffer => ret [InlineData buffer (mimetype f)])
          else ret []
      | None => ret []
      end (fun _ w' => quiet w w' /\ res_sent w' = res_sent w) w).
    { unfold readFile. wp_run; (split; [quiet_solve|done]). }
    eapply wp_mono; [exact Hhere|]. intros [here|e] w1 [Hq1 Hs1]; [|done].
    wp_step. eapply wp_mono; [apply IH|]. intros [more|e] w2 [Hq2 Hs2].
    + wp_run. split; [by eapply quiet_trans|congruence].
    + split; [by eapply quiet_trans|congruence].
Qed.

Lemma unlink_count_absent p (l : list File) :
  p ∉ map filepath l -> unlink_count p (map (fun f => EvUnlink (filepath f)) l) = 0.
Proof.
  induction l as [|g l IH]; simpl; [done|].
  intros Hnin. apply not_elem_of_cons in Hnin as [Hne Hnin].
  rewrite IH by done. destruct (String.eqb (filepath g) p) eqn:Heq; [|done].
  apply String.eqb_eq in Heq. congruence.
Qed.

Lemma unlink_count_once f (l : list File) :
  NoDup (map filepath l) -> f ∈ l ->
  unlink_count (filepath f) (map (fun f => EvUnlink (filepath f)) l) = 1.
Proof.
  induction l as [|g l IH]; simpl; intros Hnd Hin; [by apply elem_of_nil in Hin|].
  apply NoDup_cons in Hnd as [Hnin Hnd].
  apply elem_of_cons in Hin as [->|Hin].
  - rewrite String.eqb_refl, unlink_count_absent by done. done.
  - rewrite IH by done. destruct (String.eqb (filepath g) (filepath f)) eqn:Heq; [|done].
    apply String.eqb_eq in Heq. exfalso. apply Hnin. rewrite Heq.
    apply list_elem_of_fmap. by exists f.
Qed.

Lemma nonempty_true s : s <> "" -> nonempty s = true.
Proof. by destruct s. Qed.

(** The [finally] block of the multi-file handler, on files that are on
    disk under distinct paths: it deletes them one after the other, each
    once, and throws nothing. *)
Lemma cleanup_removes (l : list File) w :
  NoDup (map filepath l) ->
  (forall f, f ∈ l -> filepath f <> "") ->
  (forall f, f ∈ l -> is_Some (disk w !! filepath f)) ->
  wp (cleanup (map Some l))
    (fun r w' =>
       r = Val tt
       /\ trace w' = (trace w ++ map (fun f => EvUnlink (filepath f)) l)%list
       /\ (forall p, disk w !! p = None -> disk w' !! p = None)
       /\ (forall f, f ∈ l -> disk w' !! filepath f = None)) w.
Proof.
  revert w. induction l as [|f l IH]; intros w Hnd Hne Hon.
  - unfold cleanup. simpl. wp_run. rewrite app_nil_r. repeat split; try done.
    intros f Hf. by apply elem_of_nil in Hf.
  - apply NoDup_cons in Hnd as [Hnin Hnd].
    unfold cleanup in *. simpl. wp_step.
    rewrite (nonempty_true (filepath f)) by (apply Hne; left).
    destruct (Hon f) as [c Hc]; [left|].
    unfold unlinkSync. wp_step. wp_step. wp_step. wp_step. world_simpl. rewrite Hc.
    wp_step.
    eapply wp_mono; [apply IH|]; world_simpl.
    + done.
    + intros g Hg. apply Hne. by right.
    + intros g Hg. rewrite lookup_delete_ne.
      * apply Hon. by right.
      * intros Heq. apply Hnin. rewrite Heq. apply list_elem_of_fmap. by exists g.
    + intros r w' (-> & Ht & Hmono & Hgone). repeat split.
      * rewrite Ht. by rewrite <- app_assoc.
      * intros p Hp. apply Hmono. by rewrite lookup_delete_None; right.
      * intros g [->|Hg]%elem_of_cons; [|by apply Hgone].
        apply Hmono. by rewrite lookup_delete_eq.
Qed.

Lemma uploaded_files_materials form :
  materials "files" form <> [] ->
  uploaded_files form = map Some (materials "files" form).
Proof.
  unfold uploaded_files, materials.
  by destruct (assoc "files" (form_files form)) as [[f|l]|].
Qed.

(** C4. Every exam-generation handler is meant to delete each uploaded
    temporary file exactly once on every way out.  The direct-image
    handler has no cleanup: on a successful run with one uploaded image
    the file is still on disk and no deletion was attempted. *)
Theorem direct_handler_keeps_upload :
  let out := direct_handler accept_json (fun s => s)
               one_image_env (mkRequest "POST") initial in
  fst out = Val tt
  /\ status <$> res_sent (snd out) = Some 200%N
  /\ disk (snd out) !! filepath one_image = Some (contents one_image)
  /\ unlink_count (filepath one_image) (new_events initial (snd out)) = 0.
Proof. vm_compute. done. Qed.

(** The two sibling handlers do clean up.  In the multi-file handler and
    in the OCR handler, every file the handler picked from the form (the
    files under [files], given distinct non-empty paths; the first file
    under [file]) is deleted exactly once by the [finally] block, and is
    gone from the disk, on every way out of the [try] block, whatever the
    providers and the JSON parser do. *)
Lemma picked_uploads_removed_once env req w form :
  method req = "POST" -> parseOutcome env = inr form ->
  (materials "files" form <> [] ->
   NoDup (map filepath (materials "files" form)) ->
   (forall f, f ∈ materials "files" form -> filepath f <> "") ->
   forall f, f ∈ materials "files" form ->
     unlink_count (filepath f)
       (new_events w (snd (multi_handler JSON_parse trim env req w))) = 1
     /\ disk (snd (multi_handler JSON_parse trim env req w)) !! filepath f = None)
  /\ (forall f rest,
        assoc "file" (form_files form) = Some (Many (f :: rest)) ->
        filepath f <> "" ->
        unlink_count (filepath f)
          (new_events w (snd (ocr_handler JSON_parse env req w))) = 1
        /\ disk (snd (ocr_handler JSON_parse env req w)) !! filepath f = None).
Proof.
  intros Hm Hp. split.
  - intros Hne Hnd Hpaths f Hf.
    change (wp (multi_handler JSON_parse trim env req)
              (fun _ w' => unlink_count (filepath f) (new_events w w') = 1
                           /\ disk w' !! filepath f = None) w).
    unfold multi_handler, multi_body. wp_step. do 6 wp_step. enter_post Hm.
    unfold form_parse. rewrite Hp. do 6 wp_step.
    rewrite (uploaded_files_materials form Hne).
    destruct (materials "files" form) as [|f0 picked] eqn:Hmat; [done|].
    cbn [map length Nat.eqb head mbind option_bind id present negb orb].
    apply wp_try_finally.
    match goal with |- wp _ _ ?w0 => set (wp0 := w0) end.
    assert (Hsent : res_sent wp0 = None) by done.
    eapply (wp_mono _ (fun _ w1 => quiet wp0 w1)).
    + apply wp_try_catch. wp_step.
      eapply wp_mono; [apply inline_parts_quiet|].
      intros [parts|e] w1 [Hq1 Hs1]; rewrite Hsent in Hs1.
      * unfold generateContent. run_exam; quiet_solve.
      * run_exam; quiet_solve.
    + intros r w1 (Hd1 & evs & Ht1 & Hu1).
      eapply wp_mono; [apply (cleanup_removes (f0 :: picked)); try done|].
      * intros g Hg. rewrite Hd1. subst wp0. world_simpl.
        apply (materials_on_disk "files"). by rewrite Hmat.
      * intros r' w2 (-> & Ht2 & _ & Hgone). split; [|by apply Hgone].
        unfold new_events. rewrite Ht2, Ht1. subst wp0. world_simpl.
        rewrite <- !app_assoc, drop_trace_app.
        rewrite !unlink_count_app, Hu1. cbn [unlink_count].
        by rewrite unlink_count_once.
  - intros f rest Hf Hpath.
    assert (Hdisk : forall d, is_Some (write_files (all_files form) d !! filepath f)).
    { intros d. apply (materials_on_disk "file"). unfold materials. rewrite Hf. left. }
    change (wp (ocr_handler JSON_parse env req)
              (fun _ w' => unlink_count (filepath f) (new_events w w') = 1
                           /\ disk w' !! filepath f = None) w).
    unfold ocr_handler, ocr_body. wp_step. enter_post Hm.
    unfold ocr_try, ocr_finally, parseForm, form_parse, documentTextDetection.
    rewrite Hp.
    run_exam_with
      (rewrite ?assoc_map_snd, ?bind_fmap_id, ?Hf, ?(nonempty_true _ Hpath);
       cbn [fmap option_fmap option_map mbind option_bind first_of_files head id]).
    all: world_simpl.
    all: try match goal with
           | Hx : write_files _ ?d !! _ = None |- _ =>
               destruct (Hdisk d) as [? Hy]; rewrite Hy in Hx; discriminate Hx
           end.
    all: events_simpl; rewrite ?String.eqb_refl, ?lookup_delete_eq; done.
Qed.

End WithRuntime.

(** What the [finally] blocks do not reach: a second file under the key of
    the OCR handler stays on disk. *)
Example ocr_handler_keeps_second_file :
  let out := ocr_handler accept_json two_under_file_env (mkRequest "POST") initial in
  status <$> res_sent (snd out) = Some 200%N
  /\ disk (snd out) !! "/tmp/upload_1" = None
  /\ disk (snd out) !! "/tmp/upload_2" = Some "JPG".
Proof. vm_compute. done. Qed.

(** *** The theorems at concrete requests *)

Lemma no_material_no_provider_call_witness :
  res_sent (snd (direct_handler accept_json (fun s => s) empty_upload_env (mkRequest "POST") initial))
  = Some direct_no_material
  /\ res_sent (snd (multi_handler accept_json (fun s => s) empty_upload_env (mkRequest "POST") initial))
     = Some multi_no_material
  /\ res_sent (snd (ocr_handler accept_json empty_upload_env (mkRequest "POST") initial))
     = Some ocr_no_material
  /\ provider_calls
       (new_events initial
          (snd (ocr_handler accept_json empty_upload_env (mkRequest "POST") initial))) = 0.
Proof.
  destruct (no_material_no_provider_call accept_json (fun s => s) empty_upload_env
              (mkRequest "POST") initial
              (mkForm [("exam_type", Many ["10 preguntas"])] []) eq_refl eq_refl)
    as (Hd & Hm & Ho).
  destruct (Hd eq_refl) as (_ & Hd1 & _).
  destruct (Hm eq_refl) as (_ & Hm1 & _).
  destruct (Ho eq_refl) as (_ & Ho1 & Ho2).
  repeat split; assumption.
Defined.

Lemma ocr_minimum_text_witness :
  (res_sent (snd (ocr_handler accept_json (ocr_env 49) (mkRequest "POST") initial))
   = Some ocr_insufficient_text
   /\ generate_requests
        (new_events initial (snd (ocr_handler accept_json (ocr_env 49) (mkRequest "POST") initial)))
      = [])
  /\ generate_requests
       (new_events initial (snd (ocr_handler accept_json (ocr_env 50) (mkRequest "POST") initial)))
     = [ocr_generation ocr_form (text_of_length 50)].
Proof.
  split.
  - apply (ocr_minimum_text accept_json (ocr_env 49) (mkRequest "POST") initial ocr_form
             one_image [] (Some (text_of_length 49)) eq_refl eq_refl eq_refl eq_refl).
    vm_compute. lia.
  - destruct (ocr_minimum_text accept_json (ocr_env 50) (mkRequest "POST") initial ocr_form
                one_image [] (Some (text_of_length 50)) eq_refl eq_refl eq_refl eq_refl)
      as [_ Hlong].
    destruct Hlong as (text & Htext & Hgen); [vm_compute; lia|].
    injection Htext as <-. exact Hgen.
Defined.

End ExamPipelineProps.

(** * Further properties of the result store *)

Module ResultStoreCoverage.
Import ResultStore.
Import Coverage.
Import EffLemmas.
Import ResultStoreProps.

Ltac run_store :=
  repeat first
    [ apply wp_connectToDatabase; [intros ?|intros ? ?|intros ? ? ?]
    | apply wp_connectToDatabase_get; [intros ?|intros ? ?|intros ? ? ?]
    | wp_step
    | progress unfold save, insertOne, findOne ].

Ltac contradict_env :=
  match goal with
  | H : ?x = Some _, H' : ?x = None |- _ => rewrite H' in H; discriminate H
  | H : ?x = 0, H' : ?x <> 0 |- _ => destruct (H' H)
  | H : Some _ = None |- _ => discriminate H
  | H : None = Some _ |- _ => discriminate H
  end.

Ltac events_simpl :=
  unfold new_events in *; world_simpl;
  rewrite <- ?app_assoc in *;
  rewrite ?drop_trace_app, ?drop_trace_self in *;
  cbn [app connect_failures connections_established] in *.

Lemma eqb_method_neq m k : m <> k -> negb (String.eqb m k) = true.
Proof. intros H. apply negb_true_iff. by apply String.eqb_neq. Qed.

Section WithCast.

Variable cast : SchemaType -> JsValue -> option JsValue.

(** *** The save handler always answers *)

(** Every run of the save handler returns normally with one of its four
    responses. *)
Lemma guardar_responses env req w :
  wp (guardar_resultado cast env req)
    (fun v w' =>
       v = Val tt
       /\ exists r,
            res_sent w' = Some r
            /\ ((r = post_only_response /\ method req <> "POST")
                \/ (method req = "POST"
                    /\ (r = missing_fields_response
                        \/ r = saved_response (generateUniqueId (randomText env))
                        \/ exists details, r = save_failed_response details)))) w.
Proof.
  unfold guardar_resultado, guardar_body. wp_step.
  destruct (String.eqb (method req) "POST") eqn:Hm; cbn [negb].
  - apply String.eqb_eq in Hm.
    run_store; world_simpl; (split; [done|]); eexists; (split; [reflexivity|]).
    all: right; split; [done|].
    all: first [ by left | by (right; left) | right; right; eexists; reflexivity ].
  - apply String.eqb_neq in Hm.
    run_store; world_simpl. split; [done|]. eexists. split; [reflexivity|]. by left.
Qed.

(** X1. The save handler never lets an exception escape: for every
    request, environment and state it returns normally after sending one
    response, whose status is 405, 400, 201 or 500; it is 405 exactly when
    the method is not POST. *)
Theorem guardar_always_responds env req w :
  fst (guardar_resultado cast env req w) = Val tt
  /\ exists r,
       res_sent (snd (guardar_resultado cast env req w)) = Some r
       /\ (status r = 405%N \/ status r = 400%N \/ status r = 201%N \/ status r = 500%N)
       /\ (status r = 405%N <-> method req <> "POST").
Proof.
  destruct (guardar_responses env req w) as (Hv & r & Hr & Hcases).
  split; [exact Hv|]. exists r. split; [exact Hr|].
  destruct Hcases as [[-> Hm] | [Hm [-> | [-> | [details ->]]]]]; cbn [status post_only_response
    missing_fields_response saved_response save_failed_response].
  - split; [by left|]. split; done.
  - split; [right; by left|]. split; [discriminate|intros Hne; destruct (Hne Hm)].
  - split; [right; right; by left|]. split; [discriminate|intros Hne; destruct (Hne Hm)].
  - split; [right; right; by right|]. split; [discriminate|intros Hne; destruct (Hne Hm)].
Qed.

(** *** What a save does to the collection *)

(** The two ways a run of the save handler may end, as far as the
    collection goes. *)
Lemma guardar_collection_effect env req w :
  wp (guardar_resultado cast env req)
    (fun _ w' =>
       (res_sent w' = Some (saved_response (generateUniqueId (randomText env)))
        /\ exists d,
             uniqueId d = generateUniqueId (randomText env)
             /\ timestamp d = now env
             /\ resultados w !! uniqueId d = None
             /\ resultados w' = <[uniqueId d := d]> (resultados w))
       \/ ((exists r, res_sent w' = Some r
                      /\ (status r = 405%N \/ status r = 400%N \/ status r = 500%N))
           /\ resultados w' = resultados w)) w.
Proof.
  unfold guardar_resultado, guardar_body. run_store; world_simpl.
  all: try (right; split; [eexists; split; [reflexivity|cbn [status]; tauto]|done]; fail).
  all: left; split; [reflexivity|].
  all: match goal with H : validate _ = inr ?d |- _ =>
         apply validate_inr in H; destruct H as (p & a & t & e & _ & _ & _ & _ & ->)
       end.
  all: eexists; repeat split; try reflexivity; done.
Qed.

(** X2. The save handler changes the collection only when it answers 201,
    and then by one insertion: the new document sits under the generated
    id, which was free, and carries the creation time.  With any other
    response the collection is the one the handler found. *)
Theorem guardar_inserts_only_on_201 env req w :
  (res_sent (snd (guardar_resultado cast env req w))
   = Some (saved_response (generateUniqueId (randomText env)))
   /\ exists d,
        uniqueId d = generateUniqueId (randomText env)
        /\ timestamp d = now env
        /\ resultados w !! uniqueId d = None
        /\ resultados (snd (guardar_resultado cast env req w))
           = <[uniqueId d := d]> (resultados w))
  \/ ((exists r, res_sent (snd (guardar_resultado cast env req w)) = Some r
                 /\ status r <> 201%N)
      /\ resultados (snd (guardar_resultado cast env req w)) = resultados w).
Proof.
  destruct (guardar_collection_effect env req w) as [Hsaved|[(r & Hr & Hst) Hsame]].
  - left. exact Hsaved.
  - right. split; [|exact Hsame]. exists r. split; [exact Hr|].
    destruct Hst as [-> | [-> | ->]]; discriminate.
Qed.

(** X3. A collision of the generated id with a stored document is never an
    overwrite: the handler does not answer 201 and the collection,
    the stored document included, stays as it was. *)
Theorem guardar_never_overwrites env req w d0 :
  resultados w !! generateUniqueId (randomText env) = Some d0 ->
  resultados (snd (guardar_resultado cast env req w)) = resultados w
  /\ exists r, res_sent (snd (guardar_resultado cast env req w)) = Some r
               /\ (status r = 405%N \/ status r = 400%N \/ status r = 500%N).
Proof.
  intros Hd0.
  destruct (guardar_collection_effect env req w) as [(_ & d & Hid & _ & Hfree & _)|[Hr Hc]].
  - rewrite Hid, Hd0 in Hfree. discriminate Hfree.
  - done.
Qed.

(** X4. Nothing a handler does removes or replaces a stored document:
    over every sequence of invocations of the two handlers, a document in
    the collection stays in it, under its id and unchanged. *)
Theorem documents_persist calls w id d :
  resultados w !! id = Some d ->
  resultados (run_calls cast calls w) !! id = Some d.
Proof.
  revert w. induction calls as [|c calls IH]; intros w Hd; [done|].
  simpl. apply IH.
  destruct c as [env req|env req]; simpl.
  - destruct (guardar_collection_effect env req w)
      as [(_ & d' & _ & _ & Hfree & ->) | [_ ->]]; [|done].
    rewrite lookup_insert_ne; [done|]. intros <-. rewrite Hd in Hfree. discriminate Hfree.
  - destruct (obtener_total cast env req w) as (_ & _ & ->). done.
Qed.

(** *** Validation of the payload *)

(** X5. With the connection available and a body that can be
    destructured, the save handler answers with the 400 missing-field
    response exactly when one of the four fields is falsy (absent, null,
    0, NaN, the empty string or false). *)
Theorem guardar_validation_is_truthiness env req w :
  method req = "POST" -> connection_available env w ->
  nullish (req_body req) = false ->
  (some_field_falsy req = true ->
   res_sent (snd (guardar_resultado cast env req w)) = Some missing_fields_response)
  /\ (some_field_falsy req = false ->
      exists r, res_sent (snd (guardar_resultado cast env req w)) = Some r
                /\ (status r = 201%N \/ status r = 500%N)).
Proof.
  intros Hm Hc Hb. split.
  - intros Hf. by apply guardar_400_iff_falsy.
  - intros Hf.
    destruct (guardar_responses env req w) as (_ & r & Hr & Hcases).
    exists r. split; [exact Hr|].
    destruct Hcases as [[_ Hne] | [_ [-> | [-> | [details ->]]]]].
    + destruct (Hne Hm).
    + apply (guardar_400_iff_falsy cast env req w) in Hr; try done.
      rewrite Hr in Hf. discriminate Hf.
    + by left.
    + by right.
Qed.

(** X6. A body that is absent or null cannot be destructured: with the
    connection available the save handler answers 500, not 400, and
    inserts nothing. *)
Theorem guardar_without_body env req w :
  method req = "POST" -> connection_available env w ->
  nullish (req_body req) = true ->
  (exists details,
     res_sent (snd (guardar_resultado cast env req w)) = Some (save_failed_response details))
  /\ resultados (snd (guardar_resultado cast env req w)) = resultados w.
Proof.
  intros Hm Hc Hb.
  change (wp (guardar_resultado cast env req)
            (fun _ w' => (exists details, res_sent w' = Some (save_failed_response details))
                         /\ resultados w' = resultados w) w).
  unfold guardar_resultado, guardar_body. wp_step.
  rewrite Hm. change (negb ("POST" =? "POST")) with false. cbn iota.
  destruct (req_body req); try discriminate Hb; cbn [get_prop].
  all: run_store; world_simpl; try (destruct Hc; contradict_env).
  all: split; [eexists; reflexivity|done].
Qed.

(** *** The lookup handler *)

(** X7. A GET without a usable [shareId] (absent, or the empty string) is
    answered 400 before anything else happens: no connection attempt, no
    lookup, the process state untouched.  With a usable one the answer
    is never that 400. *)
Theorem obtener_requires_shareId env req w :
  method req = "GET" ->
  (truthy (query_shareId req) = false ->
   obtener_resultado cast env req w
   = (Val tt, set_sent missing_shareId_response (fresh_res w)))
  /\ (truthy (query_shareId req) = true ->
      exists r, res_sent (snd (obtener_resultado cast env req w)) = Some r
                /\ (status r = 404%N \/ status r = 200%N \/ status r = 500%N)).
Proof.
  intros Hm. unfold query_shareId. split; intros Ht.
  - unfold obtener_resultado, obtener_body, invoke. rewrite Hm, Ht. reflexivity.
  - change (wp (obtener_resultado cast env req)
              (fun _ w' => exists r, res_sent w' = Some r
                                     /\ (status r = 404%N \/ status r = 200%N
                                         \/ status r = 500%N)) w).
    unfold obtener_resultado, obtener_body. wp_step.
    rewrite Hm, Ht. change (negb ("GET" =? "GET")) with false. cbn [negb]. cbn iota.
    run_store; world_simpl; eexists; (split; [reflexivity|]); cbn [status]; tauto.
Qed.

(** X8. What goes wrong during a lookup is reported as a 500 that carries
    the message of the error itself: the error of [mongoose.connect] when
    the connection cannot be set up (and then no lookup is made), the
    error of the driver when the query fails. *)
Theorem obtener_reports_errors env req w e :
  method req = "GET" -> truthy (query_shareId req) = true ->
  (readyState w = 0 -> connectOutcome env = Some e ->
   res_sent (snd (obtener_resultado cast env req w)) = Some (lookup_failed (message e))
   /\ lookups (new_events w (snd (obtener_resultado cast env req w))) = 0)
  /\ (connection_available env w -> driverOutcome env = Some e ->
      forall s, query_shareId req = JStr s ->
      res_sent (snd (obtener_resultado cast env req w)) = Some (lookup_failed (message e))).
Proof.
  intros Hm Ht. unfold query_shareId in *. split.
  - intros Hrs Hc.
    change (wp (obtener_resultado cast env req)
              (fun _ w' => res_sent w' = Some (lookup_failed (message e))
                           /\ lookups (new_events w w') = 0) w).
    unfold obtener_resultado, obtener_body. wp_step.
    rewrite Hm, Ht. change (negb ("GET" =? "GET")) with false. cbn [negb]. cbn iota.
    run_store; events_simpl; try contradict_env.
    match goal with H : connectOutcome env = Some _ |- _ => rewrite Hc in H; injection H as <- end.
    cbn [lookups]. done.
  - intros Hc Hd s Hs.
    change (wp (obtener_resultado cast env req)
              (fun _ w' => res_sent w' = Some (lookup_failed (message e))) w).
    unfold obtener_resultado, obtener_body. wp_step.
    rewrite Hm, Ht. change (negb ("GET" =? "GET")) with false. cbn [negb]. cbn iota.
    rewrite Hs. unfold findOne. cbn [filter_id]. rewrite Hd.
    run_store; world_simpl; try (destruct Hc; contradict_env); done.
Qed.

(** *** When a save succeeds *)

Lemma validate_inl r e :
  validate r = inl e ->
  r_puntuacion r = None \/ r_respuestas r = None
  \/ r_totalPreguntas r = None \/ r_examen r = None.
Proof.
  unfold validate.
  destruct (r_puntuacion r), (r_respuestas r), (r_totalPreguntas r), (r_examen r);
    try discriminate; auto.
Qed.

(** X10. With the connection available and a body that can be
    destructured, the save handler answers 201 with the generated id
    exactly when the four fields are truthy, the schema accepts each of
    them, the driver reaches the server and no stored document has the
    generated id. *)
Theorem guardar_accepts_iff env req w :
  method req = "POST" -> connection_available env w ->
  nullish (req_body req) = false ->
  res_sent (snd (guardar_resultado cast env req w))
  = Some (saved_response (generateUniqueId (randomText env)))
  <-> savable cast env req w.
Proof.
  intros Hm Hc Hb.
  change (wp (guardar_resultado cast env req)
            (fun _ w' =>
               res_sent w' = Some (saved_response (generateUniqueId (randomText env)))
               <-> savable cast env req w) w).
  unfold guardar_resultado, guardar_body. wp_step.
  rewrite Hm. change (negb ("POST" =? "POST")) with false. cbn iota.
  rewrite !(get_prop_payload _ _ Hb).
  fold (some_field_falsy req).
  run_store; world_simpl; try (destruct Hc; contradict_env).
  all: unfold savable.
  all: try match goal with
         | H : validate _ = inl _ |- _ =>
             apply validate_inl in H;
             cbn [new_Resultado r_puntuacion r_respuestas r_totalPreguntas r_examen] in H
         | H : validate _ = inr _ |- _ =>
             apply validate_inr in H;
             cbn [new_Resultado r_puntuacion r_respuestas r_totalPreguntas r_examen
                  r_id r_uniqueId r_timestamp] in H;
             destruct H as (p & a & t & e & Hp & Ha & Ht & He & ->);
             cbn [uniqueId] in *
         end.
  all: split; [try discriminate|].
  all: try (intros (Hf & [? Hp'] & [? Ha'] & [? Ht'] & [? He'] & Hd & Hfree)).
  all: try (match goal with
            | H : _ || _ = true |- _ =>
                unfold some_field_falsy in Hf; rewrite Hf in H; discriminate H
            end).
  all: try contradict_env.
  all: try (match goal with
            | H : _ \/ _ |- _ => destruct H as [H|[H|[H|H]]]; rewrite H in *; discriminate
            end).
  all: try (match goal with
            | H : _ !! _ = Some _ |- _ => rewrite Hfree in H; discriminate H
            end).
  all: try reflexivity.
  all: intros _; unfold some_field_falsy; repeat split; eauto.
Qed.

End WithCast.

(** *** The shape of generated ids *)

(** X9. On the rendering of a number of [0, 1) with digits [ds] after the
    point, the generated id is [R_] followed by the first six digits in
    upper case, or by all of them when there are fewer; it matches
    [R_[A-Z0-9]{6}] exactly when there are at least six digits. *)
Theorem generateUniqueId_format ds :
  all_chars is_radix36_digit ds = true ->
  generateUniqueId (String "0" (String "." ds))
  = String "R" (String "_" (toUpperCase (substring 0 6 ds)))
  /\ String.length (generateUniqueId (String "0" (String "." ds)))
     = 2 + Nat.min 6 (String.length ds)
  /\ matches_shareId (generateUniqueId (String "0" (String "." ds)))
     = (6 <=? String.length ds)%nat.
Proof.
  intros Hds. destruct (generateUniqueId_shape ds Hds) as (t & Hid & Hlen & Hall).
  split; [reflexivity|]. rewrite Hid. cbn [String.length matches_shareId].
  rewrite Hlen, Hall, andb_true_r. split; [done|].
  destruct (Nat.leb_spec 6 (String.length ds)) as [Hle|Hlt].
  - rewrite Nat.min_l by done. done.
  - rewrite Nat.min_r by lia. apply Nat.eqb_neq. lia.
Qed.

(** *** The theorems at concrete requests *)

Lemma guardar_never_overwrites_witness :
  resultados (snd (guardar_resultado identity_cast sample_env sample_request
                     (snd (guardar_resultado identity_cast sample_env sample_request initial))))
  = resultados (snd (guardar_resultado identity_cast sample_env sample_request initial))
  /\ exists r,
       res_sent (snd (guardar_resultado identity_cast sample_env sample_request
                        (snd (guardar_resultado identity_cast sample_env sample_request initial))))
       = Some r
       /\ (status r = 405%N \/ status r = 400%N \/ status r = 500%N).
Proof.
  apply (guardar_never_overwrites identity_cast sample_env sample_request
           (snd (guardar_resultado identity_cast sample_env sample_request initial))
           (mkDoc "651f0c2ab7e4" "R_4FZYO8" 1700000000000
              (payload_field sample_request "puntuacion")
              (payload_field sample_request "respuestas")
              (payload_field sample_request "totalPreguntas")
              (payload_field sample_request "examen"))).
  reflexivity.
Defined.

Lemma documents_persist_witness :
  resultados
    (run_calls identity_cast
       [CallGuardar later_env sample_request; CallObtener later_env (lookup_request "R_X")]
       (snd (guardar_resultado identity_cast sample_env sample_request initial)))
    !! "R_4FZYO8"
  = Some (mkDoc "651f0c2ab7e4" "R_4FZYO8" 1700000000000
            (payload_field sample_request "puntuacion")
            (payload_field sample_request "respuestas")
            (payload_field sample_request "totalPreguntas")
            (payload_field sample_request "examen")).
Proof.
  apply (documents_persist identity_cast
           [CallGuardar later_env sample_request; CallObtener later_env (lookup_request "R_X")]
           (snd (guardar_resultado identity_cast sample_env sample_request initial))).
  reflexivity.
Defined.

Lemma guardar_validation_is_truthiness_witness :
  res_sent (snd (guardar_resultado identity_cast sample_env incomplete_request initial))
  = Some missing_fields_response
  /\ exists r,
       res_sent (snd (guardar_resultado identity_cast sample_env sample_request initial)) = Some r
       /\ (status r = 201%N \/ status r = 500%N).
Proof.
  split.
  - apply (guardar_validation_is_truthiness identity_cast sample_env incomplete_request initial);
      first [reflexivity | right; reflexivity].
  - apply (guardar_validation_is_truthiness identity_cast sample_env sample_request initial);
      first [reflexivity | right; reflexivity].
Defined.

Lemma guardar_without_body_witness :
  (exists details,
     res_sent (snd (guardar_resultado identity_cast sample_env bodyless_request initial))
     = Some (save_failed_response details))
  /\ resultados (snd (guardar_resultado identity_cast sample_env bodyless_request initial))
     = resultados initial.
Proof.
  apply (guardar_without_body identity_cast sample_env bodyless_request initial);
    first [reflexivity | right; reflexivity].
Defined.

Lemma obtener_requires_shareId_witness :
  obtener_resultado identity_cast offline_env idless_request initial
  = (Val tt, set_sent missing_shareId_response (fresh_res initial)).
Proof.
  apply (obtener_requires_shareId identity_cast offline_env idless_request initial);
    reflexivity.
Defined.

Lemma obtener_reports_errors_witness :
  res_sent (snd (obtener_resultado identity_cast offline_env (lookup_request "R_4FZYO8") initial))
  = Some (lookup_failed "connect ECONNREFUSED")
  /\ res_sent (snd (obtener_resultado identity_cast unreachable_env (lookup_request "R_4FZYO8")
                      initial))
     = Some (lookup_failed "connection timed out").
Proof.
  split.
  - apply (obtener_reports_errors identity_cast offline_env (lookup_request "R_4FZYO8") initial
             (mkExn "MongooseServerSelectionError" "connect ECONNREFUSED")); reflexivity.
  - apply (obtener_reports_errors identity_cast unreachable_env (lookup_request "R_4FZYO8")
             initial (mkExn "MongoNetworkError" "connection timed out") eq_refl eq_refl)
      with (s := "R_4FZYO8"); first [reflexivity | right; reflexivity].
Defined.

Lemma generateUniqueId_format_witness :
  generateUniqueId "0.4fzyo82mvyr" = "R_4FZYO8"
  /\ matches_shareId (generateUniqueId "0.4fzyo82mvyr") = true
  /\ matches_shareId (generateUniqueId "0.i") = false.
Proof.
  destruct (generateUniqueId_format "4fzyo82mvyr" eq_refl) as (Hid & _ & Hm).
  destruct (generateUniqueId_format "i" eq_refl) as (_ & _ & Hm').
  repeat split; assumption.
Defined.

Lemma guardar_accepts_iff_witness :
  res_sent (snd (guardar_resultado identity_cast sample_env sample_request initial))
  = Some (saved_response (generateUniqueId (randomText sample_env))).
Proof.
  apply (guardar_accepts_iff identity_cast sample_env sample_request initial);
    first [reflexivity | right; reflexivity | idtac].
  unfold savable, identity_cast. repeat split; eauto.
Defined.

End ResultStoreCoverage.

(** * Further properties of the exam-generation handlers *)

Module ExamPipelineCoverage.
Import ExamPipeline.
Import Coverage.
Import EffLemmas.
Import ExamPipelineProps.

Ltac world_simpl' :=
  cbn [res_sent resultados readyState trace disk res_headers
       set_sent emit emit_all fresh_res set_readyState set_resultados set_disk add_header
       fst snd] in *.

Ltac run_exam :=
  repeat first
    [ wp_step
    | progress unfold form_parse, parseForm, readFile, unlinkSync, generateContent,
        documentTextDetection ].

Tactic Notation "run_exam_with" tactic3(tac) :=
  repeat first
    [ progress tac
    | wp_step
    | progress unfold form_parse, parseForm, readFile, unlinkSync, generateContent,
        documentTextDetection ].

(** Symbolic execution up to the next branch of the handler. *)
Ltac run_to_branch :=
  repeat (lazymatch goal with
          | |- wp (if _ then _ else _) _ _ => fail
          | |- wp (match _ with _ => _ end) _ _ => fail
          | |- _ => wp_step
          end).

Ltac enter_post Hm :=
  rewrite Hm; change (negb ("POST" =? "POST")) with false;
  try change ("POST" =? "OPTIONS") with false; cbn iota.

(** *** Runs that only add events *)

Lemma emit_all_nil w : emit_all [] w = w.
Proof. destruct w. unfold emit_all. simpl. by rewrite app_nil_r. Qed.

Lemma emit_all_emit e evs w : emit e (emit_all evs w) = emit_all (evs ++ [e]) w.
Proof. unfold emit, emit_all. simpl. by rewrite app_assoc. Qed.

Lemma emit_all_app evs1 evs2 w : emit_all evs2 (emit_all evs1 w) = emit_all (evs1 ++ evs2) w.
Proof. unfold emit_all. simpl. by rewrite app_assoc. Qed.

Lemma emit_all_cons e evs w : emit_all evs (emit e w) = emit_all (e :: evs) w.
Proof. unfold emit, emit_all. simpl. by rewrite <- app_assoc. Qed.

Lemma reads_no_provider evs : forallb is_read evs = true -> provider_calls evs = 0.
Proof.
  induction evs as [|e evs IH]; simpl; [done|]. by destruct e; simpl; try discriminate.
Qed.

Lemma reads_no_generate evs : forallb is_read evs = true -> generate_requests evs = [].
Proof.
  induction evs as [|e evs IH]; simpl; [done|]. by destruct e; simpl; try discriminate.
Qed.

Lemma reads_no_unlink p evs : forallb is_read evs = true -> unlink_count p evs = 0.
Proof.
  induction evs as [|e evs IH]; simpl; [done|]. by destruct e; simpl; try discriminate.
Qed.

Lemma forallb_reads fs : forallb is_read (reads fs) = true.
Proof. by induction fs. Qed.

(** The loop of the direct-image handler reads, and nothing else: whatever
    happens, the state it leaves differs from the one it found by a list
    of read events. *)
Lemma image_parts_frame files w :
  exists evs, snd (image_parts files w) = emit_all evs w /\ forallb is_read evs = true.
Proof.
  revert w. induction files as [|f files IH]; intros w.
  - exists []. by rewrite emit_all_nil.
  - simpl. unfold bind at 1.
    destruct (nonempty (filepath f) && truthy_opt (mimetype f)).
    + unfold readFile, bind, log, modify, gets, ret, throw. cbn [fst snd disk emit].
      destruct (disk w !! filepath f) as [c|].
      * destruct (IH (emit (EvReadFile (filepath f)) w)) as (evs & Hw & Hr).
        destruct (image_parts files (emit (EvReadFile (filepath f)) w)) as [[more|e] w'];
          simpl in *; subst w'; exists (EvReadFile (filepath f) :: evs);
          (split; [apply emit_all_cons|done]).
      * exists [EvReadFile (filepath f)]. done.
    + unfold ret at 1. unfold bind.
      destruct (IH w) as (evs & Hw & Hr).
      destruct (image_parts files w) as [[more|e] w']; simpl in *; subst w'; exists evs; done.
Qed.

Lemma inline_parts_frame files w :
  exists evs, snd (inline_parts files w) = emit_all evs w /\ forallb is_read evs = true.
Proof.
  revert w. induction files as [|f files IH]; intros w.
  - exists []. by rewrite emit_all_nil.
  - simpl. unfold bind at 1.
    assert (Hskip : exists evs,
               snd (bind (ret (S := World) []) (fun here : list Part =>
                      bind (inline_parts files) (fun more => ret (here ++ more)%list)) w)
               = emit_all evs w /\ forallb is_read evs = true).
    { unfold ret at 1. unfold bind.
      destruct (IH w) as (evs & Hw & Hr).
      destruct (inline_parts files w) as [[more|e] w']; simpl in *; subst w'; exists evs; done. }
    destruct f as [f|]; [|exact Hskip].
    destruct (nonempty (filepath f)); [|exact Hskip].
    unfold readFile, bind, log, modify, gets, ret, throw. cbn [fst snd disk emit].
    destruct (disk w !! filepath f) as [c|].
    + destruct (IH (emit (EvReadFile (filepath f)) w)) as (evs & Hw & Hr).
      destruct (inline_parts files (emit (EvReadFile (filepath f)) w)) as [[more|e] w'];
        simpl in *; subst w'; exists (EvReadFile (filepath f) :: evs);
        (split; [apply emit_all_cons|done]).
    + exists [EvReadFile (filepath f)]. done.
Qed.

Lemma wp_image_parts_frame files (Q : Result (list Part) -> World -> Prop) w :
  (forall r evs, forallb is_read evs = true -> Q r (emit_all evs w)) ->
  wp (image_parts files) Q w.
Proof.
  intros HQ. unfold wp. destruct (image_parts_frame files w) as (evs & -> & Hr). by apply HQ.
Qed.

Lemma wp_inline_parts_frame files (Q : Result (list Part) -> World -> Prop) w :
  (forall r evs, forallb is_read evs = true -> Q r (emit_all evs w)) ->
  wp (inline_parts files) Q w.
Proof.
  intros HQ. unfold wp. destruct (inline_parts_frame files w) as (evs & -> & Hr). by apply HQ.
Qed.

(** With the files on disk the loops are straight-line: one read and one
    part per file they take, in the order of the upload. *)
Lemma image_parts_on_disk files w :
  (forall f, f ∈ files -> is_Some (disk w !! filepath f)) ->
  image_parts files w
  = (Val (map (disk_part (disk w)) (List.filter usable_image files)),
     emit_all (reads (List.filter usable_image files)) w).
Proof.
  revert w. induction files as [|f files IH]; intros w Hon.
  - simpl. unfold ret. by rewrite emit_all_nil.
  - cbn [image_parts List.filter].
    change (nonempty (filepath f) && truthy_opt (mimetype f)) with (usable_image f).
    destruct (usable_image f) eqn:Hu; unfold bind at 1.
    + destruct (Hon f) as [c Hc]; [left|].
      unfold readFile, bind, log, modify, gets, ret. cbn [fst snd disk emit]. rewrite Hc.
      rewrite IH by (intros g Hg; apply Hon; by right).
      cbn [disk emit map reads app]. unfold disk_part at 2. rewrite Hc.
      cbn [default from_option id]. by rewrite emit_all_cons.
    + unfold ret at 1. unfold bind. rewrite IH by (intros g Hg; apply Hon; by right). done.
Qed.

Lemma inline_parts_on_disk files w :
  (forall f, f ∈ files -> is_Some (disk w !! filepath f)) ->
  inline_parts (map Some files) w
  = (Val (map (disk_part (disk w)) (List.filter has_path files)),
     emit_all (reads (List.filter has_path files)) w).
Proof.
  revert w. induction files as [|f files IH]; intros w Hon.
  - simpl. unfold ret. by rewrite emit_all_nil.
  - cbn [inline_parts map List.filter].
    change (nonempty (filepath f)) with (has_path f).
    destruct (has_path f) eqn:Hu; unfold bind at 1.
    + destruct (Hon f) as [c Hc]; [left|].
      unfold readFile, bind, log, modify, gets, ret. cbn [fst snd disk emit]. rewrite Hc.
      rewrite IH by (intros g Hg; apply Hon; by right).
      cbn [disk emit map reads app]. unfold disk_part at 2. rewrite Hc.
      cbn [default from_option id]. by rewrite emit_all_cons.
    + unfold ret at 1. unfold bind. rewrite IH by (intros g Hg; apply Hon; by right). done.
Qed.

Lemma wp_image_parts_on_disk files (Q : Result (list Part) -> World -> Prop) w :
  (forall f, f ∈ files -> is_Some (disk w !! filepath f)) ->
  Q (Val (map (disk_part (disk w)) (List.filter usable_image files)))
    (emit_all (reads (List.filter usable_image files)) w) ->
  wp (image_parts files) Q w.
Proof. intros Hon HQ. unfold wp. by rewrite image_parts_on_disk. Qed.

Lemma wp_inline_parts_on_disk files (Q : Result (list Part) -> World -> Prop) w :
  (forall f, f ∈ files -> is_Some (disk w !! filepath f)) ->
  Q (Val (map (disk_part (disk w)) (List.filter has_path files)))
    (emit_all (reads (List.filter has_path files)) w) ->
  wp (inline_parts (map Some files)) Q w.
Proof. intros Hon HQ. unfold wp. by rewrite inline_parts_on_disk. Qed.

(** Under distinct paths, what is on disk under the path of an upload is
    that upload. *)
Lemma write_files_contents fs d f :
  NoDup (map filepath fs) -> f ∈ fs -> write_files fs d !! filepath f = Some (contents f).
Proof.
  unfold write_files. revert d. induction fs as [|g fs IH] using rev_ind; intros d Hnd Hin.
  - by apply elem_of_nil in Hin.
  - rewrite foldl_app. simpl. rewrite map_app in Hnd. apply NoDup_app in Hnd as (Hnd & Hdisj & _).
    apply elem_of_app in Hin as [Hin|Hin].
    + rewrite lookup_insert_ne; [by apply IH|].
      intros Heq. apply (Hdisj (filepath f)).
      * apply list_elem_of_fmap. by exists f.
      * rewrite <- Heq. left.
    + apply list_elem_of_singleton in Hin as ->. by rewrite lookup_insert_eq.
Qed.

Lemma materials_all_files key form f : f ∈ materials key form -> f ∈ all_files form.
Proof.
  unfold materials. intros Hin.
  destruct (assoc key (form_files form)) as [e|] eqn:He; [|by apply elem_of_nil in Hin].
  unfold all_files. by eapply assoc_entry_files.
Qed.

Lemma elem_of_filter_bool {A} (p : A -> bool) (l : list A) x :
  x ∈ List.filter p l -> x ∈ l.
Proof. rewrite !list_elem_of_In. intros H. by apply filter_In in H as [? _]. Qed.

Lemma disk_parts_uploaded form w (p : File -> bool) key :
  NoDup (map filepath (all_files form)) ->
  map (disk_part (uploaded form w)) (List.filter p (materials key form))
  = map part_of_file (List.filter p (materials key form)).
Proof.
  intros Hnd. apply map_ext_in. intros f Hf.
  apply list_elem_of_In, elem_of_filter_bool, materials_all_files in Hf.
  unfold disk_part, part_of_file, uploaded. by rewrite write_files_contents.
Qed.

(** The [finally] block of the multi-file handler on files that are on
    disk under distinct, non-empty paths. *)
Lemma cleanup_on_disk l w :
  NoDup (map filepath l) ->
  (forall f, f ∈ l -> filepath f <> "") ->
  (forall f, f ∈ l -> is_Some (disk w !! filepath f)) ->
  cleanup (map Some l) w = (Val tt, after_cleanup l w).
Proof.
  revert w. induction l as [|f l IH]; intros w Hnd Hne Hon.
  - unfold cleanup, after_cleanup, remove_all, unlinks. simpl. unfold ret.
    destruct w. simpl. by rewrite app_nil_r.
  - apply NoDup_cons in Hnd as [Hnin Hnd].
    unfold cleanup in *. cbn [map for_each].
    rewrite (nonempty_true (filepath f)) by (apply Hne; left).
    destruct (Hon f) as [c Hc]; [left|].
    unfold unlinkSync, bind at 1, log, modify, gets, bind. cbn [fst snd disk emit]. rewrite Hc.
    rewrite IH.
    + unfold after_cleanup, remove_all, unlinks. cbn [readyState resultados disk res_headers
        res_sent trace set_disk emit foldl map]. by rewrite <- app_assoc.
    + done.
    + intros g Hg. apply Hne. by right.
    + intros g Hg. cbn [disk set_disk]. rewrite lookup_delete_ne.
      * apply Hon. by right.
      * intros Heq. apply Hnin. rewrite Heq. apply list_elem_of_fmap. by exists g.
Qed.

Lemma remove_all_none l d p : d !! p = None -> remove_all l d !! p = None.
Proof.
  unfold remove_all. revert d. induction l as [|f l IH]; intros d Hp; [done|].
  simpl. apply IH. rewrite lookup_delete_None. by right.
Qed.

Lemma remove_all_gone l d f : f ∈ l -> remove_all l d !! filepath f = None.
Proof.
  revert d. induction l as [|g l IH]; intros d Hin; [by apply elem_of_nil in Hin|].
  apply elem_of_cons in Hin as [->|Hin].
  - apply (remove_all_none l). by rewrite lookup_delete_eq.
  - apply (IH (delete (filepath g) d) Hin).
Qed.

Lemma remove_all_other l d p : p ∉ map filepath l -> remove_all l d !! p = d !! p.
Proof.
  unfold remove_all. revert d. induction l as [|g l IH]; intros d Hp; [done|].
  apply not_elem_of_cons in Hp as [Hne Hp]. simpl. rewrite IH by done.
  by rewrite lookup_delete_ne.
Qed.

Lemma filter_has_path_all l :
  (forall f, f ∈ l -> filepath f <> "") -> List.filter has_path l = l.
Proof.
  induction l as [|f l IH]; intros Hne; [done|]. simpl.
  unfold has_path at 1. rewrite nonempty_true by (apply Hne; left).
  f_equal. apply IH. intros g Hg. apply Hne. by right.
Qed.

Lemma unlinks_no_generate l : generate_requests (unlinks l) = [].
Proof. by induction l. Qed.

Lemma unlinks_count_once f l :
  NoDup (map filepath l) -> f ∈ l -> unlink_count (filepath f) (unlinks l) = 1.
Proof. apply unlink_count_once. Qed.

Ltac events_simpl' :=
  unfold new_events in *; world_simpl';
  rewrite <- ?app_assoc in *;
  rewrite ?drop_trace_app, ?drop_trace_self in *;
  rewrite ?provider_calls_app, ?generate_requests_app, ?unlink_count_app in *;
  rewrite ?(reads_no_generate _ (forallb_reads _)), ?(reads_no_provider _ (forallb_reads _)),
    ?(reads_no_unlink _ _ (forallb_reads _)) in *;
  cbn [app provider_calls generate_requests unlink_count] in *.

Section WithRuntime.

Variable JSON_parse : string -> option JsValue.
Variable trim : string -> string.

(** *** The direct-image handler *)

(** The direct-image handler once the form is parsed and holds material:
    the run reaches the generation provider with the state that [Q] is
    then asked about. *)
Lemma wp_direct_after_upload env req w form (Q : Result unit -> World -> Prop) :
  method req = "POST" -> parseOutcome env = inr form -> materials "files" form <> [] ->
  (forall w1,
     w1 = emit (EvGenerate
                 (mkGenRequest "gemini-2.5-flash-preview-09-2025"
                    (map (disk_part (uploaded form w))
                       (List.filter usable_image (materials "files" form))
                     ++ [Text (PromptImages (flat_exam_type form))])%list false true))
            (emit_all (reads (List.filter usable_image (materials "files" form)))
               (set_disk (uploaded form w) (emit EvParseForm (fresh_res w)))) ->
     match genOutcome env with
     | inl e =>
         Q (Val tt)
           (set_sent (direct_failed (message e))
              (emit (EvConsoleError "Error en la función handler:" (message e)) w1))
     | inr None =>
         forall details,
           Q (Val tt)
             (set_sent (direct_failed details)
                (emit (EvConsoleError "Error en la función handler:" details) w1))
     | inr (Some text) =>
         match JSON_parse (trim text) with
         | Some j => Q (Val tt) (set_sent (direct_exam j) w1)
         | None =>
             Q (Val tt)
               (set_sent (direct_bad_format (trim text))
                  (emit (EvConsoleError "Error al parsear la respuesta JSON del modelo:"
                           (message syntaxError)) w1))
         end
     end) ->
  wp (direct_handler JSON_parse trim env req) Q w.
Proof.
  intros Hm Hp Hne HQ.
  unfold direct_handler, direct_body. wp_step. enter_post Hm.
  unfold form_parse. rewrite Hp. run_to_branch.
  fold (materials "files" form). fold (flat_exam_type form).
  destruct (materials "files" form) as [|f0 fs] eqn:Hmat; [done|].
  cbn [length Nat.eqb]. rewrite <- Hmat in *.
  wp_step. apply wp_image_parts_on_disk.
  { intros f Hf. world_simpl'. by apply (materials_on_disk "files"). }
  world_simpl'. fold (uploaded form w).
  specialize (HQ _ eq_refl).
  unfold generateContent. do 3 wp_step. wp_step.
  destruct (genOutcome env) as [e|[text|]]; cbn [lift];
    (run_exam_with (cbn [text_trim]));
    first [exact HQ | apply HQ].
Qed.

(** X11. Once the form is parsed and holds material, the direct-image
    handler calls the generation provider exactly once, whatever the
    provider answers: no retry.  With distinct upload paths the request
    carries one inline part per file that has a path and a media type, in
    the order of the upload and with the uploaded bytes, followed by the
    text prompt for the requested exam type (or the default one). *)
Theorem direct_generation_once env req w form :
  method req = "POST" -> parseOutcome env = inr form ->
  materials "files" form <> [] -> NoDup (map filepath (all_files form)) ->
  generate_requests (new_events w (snd (direct_handler JSON_parse trim env req w)))
  = [direct_generation form].
Proof.
  intros Hm Hp Hne Hnd.
  change (wp (direct_handler JSON_parse trim env req)
            (fun _ w' => generate_requests (new_events w w') = [direct_generation form]) w).
  apply (wp_direct_after_upload env req w form); try done.
  intros w1 ->. rewrite disk_parts_uploaded by done. fold (direct_generation form).
  destruct (genOutcome env) as [e|[text|]]; [| destruct (JSON_parse (trim text)) |intros details].
  all: events_simpl'; done.
Qed.

(** X12. The answer of the direct-image handler, once the form is parsed
    and holds material, is decided by the generation provider: its text,
    trimmed and parsed as JSON, comes back in [examen] with status 200; a
    text that is not JSON gives the 500 invalid-format response that
    echoes the trimmed text; an error of the provider gives the 500
    response that carries the error's message.  The handler returns
    normally in each case. *)
Theorem direct_outcome env req w form :
  method req = "POST" -> parseOutcome env = inr form -> materials "files" form <> [] ->
  fst (direct_handler JSON_parse trim env req w) = Val tt
  /\ (forall text j, genOutcome env = inr (Some text) -> JSON_parse (trim text) = Some j ->
      res_sent (snd (direct_handler JSON_parse trim env req w)) = Some (direct_exam j))
  /\ (forall text, genOutcome env = inr (Some text) -> JSON_parse (trim text) = None ->
      res_sent (snd (direct_handler JSON_parse trim env req w))
      = Some (direct_bad_format (trim text)))
  /\ (forall e, genOutcome env = inl e ->
      res_sent (snd (direct_handler JSON_parse trim env req w))
      = Some (direct_failed (message e))).
Proof.
  intros Hm Hp Hne.
  change (wp (direct_handler JSON_parse trim env req)
            (fun v w' =>
               v = Val tt
               /\ (forall text j, genOutcome env = inr (Some text) ->
                                  JSON_parse (trim text) = Some j ->
                                  res_sent w' = Some (direct_exam j))
               /\ (forall text, genOutcome env = inr (Some text) ->
                                JSON_parse (trim text) = None ->
                                res_sent w' = Some (direct_bad_format (trim text)))
               /\ (forall e, genOutcome env = inl e ->
                             res_sent w' = Some (direct_failed (message e)))) w).
  apply (wp_direct_after_upload env req w form); try done.
  intros w1 _.
  destruct (genOutcome env) as [e|[text|]];
    [| destruct (JSON_parse (trim text)) eqn:Hj |intros details].
  all: world_simpl'; split; [done|]; repeat split.
  all: try (intros; discriminate).
  - by intros e' [= <-].
  - intros text' j' [= <-]. rewrite Hj. by intros [= <-].
  - intros text' [= <-]. rewrite Hj. discriminate.
  - intros text' j' [= <-]. rewrite Hj. discriminate.
  - by intros text' [= <-] _.
Qed.

(** A run of the direct-image handler, for every request, environment and
    state: it returns normally with a response, deletes nothing, and the
    disk is the one it found or, when the form was parsed, that one with
    the uploads written. *)
Lemma direct_run env req w :
  wp (direct_handler JSON_parse trim env req)
    (fun v w' =>
       v = Val tt /\ is_Some (res_sent w')
       /\ (forall p, unlink_count p (new_events w w') = 0)
       /\ (disk w' = disk w
           \/ exists form, parseOutcome env = inr form /\ disk w' = uploaded form w)) w.
Proof.
  unfold direct_handler, direct_body. wp_step.
  destruct (negb (String.eqb (method req) "POST")).
  { run_exam. world_simpl'. repeat split; eauto. intros p. by events_simpl'. }
  unfold form_parse. destruct (parseOutcome env) as [e|form] eqn:Hp.
  { run_exam. world_simpl'. repeat split; eauto. intros p. by events_simpl'. }
  run_to_branch. fold (materials "files" form).
  destruct (length (materials "files" form) =? 0)%nat.
  { run_exam. world_simpl'. repeat split; eauto. intros p. by events_simpl'. }
  wp_step. apply wp_image_parts_frame. intros r evs Hr.
  destruct r as [parts|e]; cbn beta iota.
  - (run_exam_with (cbn [text_trim])); world_simpl'.
    all: repeat split; eauto.
    all: intros p; events_simpl'; rewrite ?(reads_no_unlink _ _ Hr); done.
  - run_exam; world_simpl'.
    all: repeat split; eauto.
    all: intros p; events_simpl'; rewrite ?(reads_no_unlink _ _ Hr); done.
Qed.

(** X13. The direct-image handler never lets an exception escape and
    always sends a response, for every request and whatever the parser
    and the provider do. *)
Theorem direct_always_responds env req w :
  fst (direct_handler JSON_parse trim env req w) = Val tt
  /\ is_Some (res_sent (snd (direct_handler JSON_parse trim env req w))).
Proof.
  destruct (direct_run env req w) as (Hv & Hr & _). by split.
Qed.

(** X14. The direct-image handler never deletes a file: in every run no
    deletion is attempted, and the disk afterwards is the disk before,
    with the uploads of the form on it once the form was parsed. *)
Theorem direct_never_deletes env req w :
  (forall p, unlink_count p (new_events w (snd (direct_handler JSON_parse trim env req w))) = 0)
  /\ (disk (snd (direct_handler JSON_parse trim env req w)) = disk w
      \/ exists form,
           parseOutcome env = inr form
           /\ disk (snd (direct_handler JSON_parse trim env req w)) = uploaded form w).
Proof.
  destruct (direct_run env req w) as (_ & _ & Hu & Hd). by split.
Qed.

(** *** The multi-file handler *)

(** The multi-file handler once the form is parsed and holds files under
    distinct, non-empty paths: the run reaches the generation provider,
    answers, and removes the files. *)
Lemma wp_multi_after_upload env req w form (Q : Result unit -> World -> Prop) :
  method req = "POST" -> parseOutcome env = inr form -> materials "files" form <> [] ->
  NoDup (map filepath (materials "files" form)) ->
  (forall f, f ∈ materials "files" form -> filepath f <> "") ->
  (forall w1,
     w1 = emit (EvGenerate
                 (mkGenRequest "gemini-2.5-flash"
                    (map (disk_part (uploaded form w)) (materials "files" form)
                     ++ [Text (PromptTutor (first_exam_type form))])%list true false))
            (emit_all (reads (materials "files" form))
               (set_disk (uploaded form w)
                  (emit EvParseForm
                     (add_header ("Access-Control-Allow-Headers", "Content-Type")
                        (add_header ("Access-Control-Allow-Methods", "POST, OPTIONS")
                           (add_header ("Access-Control-Allow-Origin", "*")
                              (fresh_res w))))))) ->
     match genOutcome env with
     | inl e =>
         Q (Val tt)
           (after_cleanup (materials "files" form)
              (set_sent (multi_failed (message e))
                 (emit (EvConsoleError "Error en la API de Gemini:" (message e)) w1)))
     | inr None =>
         forall details,
           Q (Val tt)
             (after_cleanup (materials "files" form)
                (set_sent (multi_failed details)
                   (emit (EvConsoleError "Error en la API de Gemini:" details) w1)))
     | inr (Some text) =>
         match JSON_parse (trim text) with
         | Some j =>
             Q (Val tt) (after_cleanup (materials "files" form) (set_sent (multi_exam j) w1))
         | None =>
             Q (Val tt)
               (after_cleanup (materials "files" form)
                  (set_sent (multi_failed (message syntaxError))
                     (emit (EvConsoleError "Error en la API de Gemini:" (message syntaxError))
                        w1)))
         end
     end) ->
  wp (multi_handler JSON_parse trim env req) Q w.
Proof.
  intros Hm Hp Hne Hnd Hpaths HQ.
  unfold multi_handler, multi_body. wp_step. do 6 wp_step. enter_post Hm.
  unfold form_parse. rewrite Hp. run_to_branch.
  rewrite (uploaded_files_materials form Hne).
  fold (first_exam_type form).
  destruct (materials "files" form) as [|f0 fs] eqn:Hmat; [done|].
  cbn [map length Nat.eqb head mbind option_bind id present negb orb]. rewrite <- Hmat in *.
  change (Some f0 :: map Some fs) with (map Some (f0 :: fs)). rewrite <- Hmat.
  assert (Hon : forall d f, f ∈ materials "files" form ->
                            is_Some (write_files (all_files form) d !! filepath f)).
  { intros d f Hf. by apply (materials_on_disk "files"). }
  apply wp_try_finally. apply wp_try_catch. wp_step.
  apply wp_inline_parts_on_disk.
  { intros f Hf. world_simpl'. by apply Hon. }
  rewrite (filter_has_path_all _ Hpaths).
  world_simpl'. fold (uploaded form w).
  specialize (HQ _ eq_refl).
  unfold generateContent. do 3 wp_step. wp_step.
  destruct (genOutcome env) as [e|[text|]]; cbn [lift];
    (run_exam_with (cbn [text_trim])).
  all: unfold wp; rewrite cleanup_on_disk;
    [ cbn [fst snd]; first [exact HQ | apply HQ]
    | done | done
    | intros f Hf; world_simpl'; by apply Hon ].
Qed.

(** X15. Once the form is parsed and holds files under distinct,
    non-empty paths, the multi-file handler calls the generation provider
    exactly once, whatever the provider answers, with one inline part per
    uploaded file, in the order of the upload and with the uploaded
    bytes, followed by the tutor prompt for the requested exam type (or
    the default one), and with the response schema. *)
Theorem multi_generation_once env req w form :
  method req = "POST" -> parseOutcome env = inr form ->
  materials "files" form <> [] -> NoDup (map filepath (all_files form)) ->
  NoDup (map filepath (materials "files" form)) ->
  (forall f, f ∈ materials "files" form -> filepath f <> "") ->
  generate_requests (new_events w (snd (multi_handler JSON_parse trim env req w)))
  = [multi_generation form].
Proof.
  intros Hm Hp Hne Hall Hnd Hpaths.
  change (wp (multi_handler JSON_parse trim env req)
            (fun _ w' => generate_requests (new_events w w') = [multi_generation form]) w).
  apply (wp_multi_after_upload env req w form); try done.
  intros w1 ->.
  assert (Hparts : map (disk_part (uploaded form w)) (materials "files" form)
                   = map part_of_file (List.filter has_path (materials "files" form))).
  { rewrite <- (disk_parts_uploaded form w has_path "files") by done.
    by rewrite filter_has_path_all. }
  rewrite Hparts. fold (multi_generation form).
  assert (Hun := unlinks_no_generate (materials "files" form)).
  destruct (genOutcome env) as [e|[text|]]; [| destruct (JSON_parse (trim text)) |intros details].
  all: unfold after_cleanup; events_simpl'; rewrite ?Hun; done.
Qed.

(** X16. The answer of the multi-file handler, once the form is parsed and
    holds files under distinct, non-empty paths, is decided by the
    generation provider: its text, trimmed and parsed as JSON, is the
    whole body of the 200 response; a text that is not JSON and an error
    of the provider both give the 500 response of the handler, the latter
    with the error's message.  The handler returns normally in each
    case. *)
Theorem multi_outcome env req w form :
  method req = "POST" -> parseOutcome env = inr form -> materials "files" form <> [] ->
  NoDup (map filepath (materials "files" form)) ->
  (forall f, f ∈ materials "files" form -> filepath f <> "") ->
  fst (multi_handler JSON_parse trim env req w) = Val tt
  /\ (forall text j, genOutcome env = inr (Some text) -> JSON_parse (trim text) = Some j ->
      res_sent (snd (multi_handler JSON_parse trim env req w)) = Some (multi_exam j))
  /\ (forall text, genOutcome env = inr (Some text) -> JSON_parse (trim text) = None ->
      exists details,
        res_sent (snd (multi_handler JSON_parse trim env req w)) = Some (multi_failed details))
  /\ (forall e, genOutcome env = inl e ->
      res_sent (snd (multi_handler JSON_parse trim env req w))
      = Some (multi_failed (message e))).
Proof.
  intros Hm Hp Hne Hnd Hpaths.
  change (wp (multi_handler JSON_parse trim env req)
            (fun v w' =>
               v = Val tt
               /\ (forall text j, genOutcome env = inr (Some text) ->
                                  JSON_parse (trim text) = Some j ->
                                  res_sent w' = Some (multi_exam j))
               /\ (forall text, genOutcome env = inr (Some text) ->
                                JSON_parse (trim text) = None ->
                                exists details, res_sent w' = Some (multi_failed details))
               /\ (forall e, genOutcome env = inl e ->
                             res_sent w' = Some (multi_failed (message e)))) w).
  apply (wp_multi_after_upload env req w form); try done.
  intros w1 _.
  destruct (genOutcome env) as [e|[text|]];
    [| destruct (JSON_parse (trim text)) eqn:Hj |intros details].
  all: unfold after_cleanup; world_simpl'; split; [done|]; repeat split.
  all: try (intros; discriminate).
  - by intros e' [= <-].
  - intros text' j' [= <-]. rewrite Hj. by intros [= <-].
  - intros text' [= <-]. rewrite Hj. discriminate.
  - intros text' j' [= <-]. rewrite Hj. discriminate.
  - intros text' [= <-] _. eauto.
Qed.

(** X17. What the multi-file handler does to the disk, once the form is
    parsed and holds files under distinct, non-empty paths: every file
    under [files] is deleted, exactly once, and every other path holds
    what it held after the upload; the files uploaded under other keys
    stay. *)
Theorem multi_removes_its_uploads env req w form :
  method req = "POST" -> parseOutcome env = inr form -> materials "files" form <> [] ->
  NoDup (map filepath (materials "files" form)) ->
  (forall f, f ∈ materials "files" form -> filepath f <> "") ->
  disk (snd (multi_handler JSON_parse trim env req w))
  = remove_all (materials "files" form) (uploaded form w)
  /\ (forall f, f ∈ materials "files" form ->
      disk (snd (multi_handler JSON_parse trim env req w)) !! filepath f = None
      /\ unlink_count (filepath f)
           (new_events w (snd (multi_handler JSON_parse trim env req w))) = 1)
  /\ (forall p, p ∉ map filepath (materials "files" form) ->
      disk (snd (multi_handler JSON_parse trim env req w)) !! p = uploaded form w !! p).
Proof.
  intros Hm Hp Hne Hnd Hpaths.
  assert (Hdisk : disk (snd (multi_handler JSON_parse trim env req w))
                  = remove_all (materials "files" form) (uploaded form w)
                  /\ forall f, f ∈ materials "files" form ->
                       unlink_count (filepath f)
                         (new_events w (snd (multi_handler JSON_parse trim env req w))) = 1).
  { change (wp (multi_handler JSON_parse trim env req)
              (fun _ w' =>
                 disk w' = remove_all (materials "files" form) (uploaded form w)
                 /\ forall f, f ∈ materials "files" form ->
                      unlink_count (filepath f) (new_events w w') = 1) w).
    apply (wp_multi_after_upload env req w form); try done.
    intros w1 ->.
    destruct (genOutcome env) as [e|[text|]];
      [| destruct (JSON_parse (trim text)) |intros details].
    all: unfold after_cleanup; split; [reflexivity|].
    all: intros f Hf; events_simpl'; rewrite unlinks_count_once by done; done. }
  destruct Hdisk as [Hd Hu]. split; [exact Hd|]. split.
  - intros f Hf. split; [|by apply Hu]. rewrite Hd. by apply remove_all_gone.
  - intros p Hp'. rewrite Hd. by apply remove_all_other.
Qed.

(** *** A form that cannot be parsed *)

(** X18. When formidable fails to parse the form of a POST, the
    direct-image handler and the OCR handler answer 500 with the parser's
    message, while the multi-file handler, which parses outside its [try]
    block, lets the error escape and sends no response.  No handler
    touches the disk or calls a provider. *)
Theorem parse_failure_handling env req w e :
  method req = "POST" -> parseOutcome env = inl e ->
  (fst (direct_handler JSON_parse trim env req w) = Val tt
   /\ res_sent (snd (direct_handler JSON_parse trim env req w))
      = Some (direct_failed (message e))
   /\ provider_calls (new_events w (snd (direct_handler JSON_parse trim env req w))) = 0)
  /\ (fst (multi_handler JSON_parse trim env req w) = Thrown e
      /\ res_sent (snd (multi_handler JSON_parse trim env req w)) = None
      /\ provider_calls (new_events w (snd (multi_handler JSON_parse trim env req w))) = 0)
  /\ (fst (ocr_handler JSON_parse env req w) = Val tt
      /\ res_sent (snd (ocr_handler JSON_parse env req w)) = Some (ocr_failed (message e))
      /\ provider_calls (new_events w (snd (ocr_handler JSON_parse env req w))) = 0).
Proof.
  intros Hm Hp. split; [|split].
  - change (wp (direct_handler JSON_parse trim env req)
              (fun v w' => v = Val tt /\ res_sent w' = Some (direct_failed (message e))
                           /\ provider_calls (new_events w w') = 0) w).
    unfold direct_handler, direct_body. wp_step. enter_post Hm.
    unfold form_parse. rewrite Hp. run_exam. events_simpl'. done.
  - change (wp (multi_handler JSON_parse trim env req)
              (fun v w' => v = Thrown e /\ res_sent w' = None
                           /\ provider_calls (new_events w w') = 0) w).
    unfold multi_handler, multi_body. wp_step. do 6 wp_step. enter_post Hm.
    unfold form_parse. rewrite Hp. run_exam. events_simpl'. done.
  - change (wp (ocr_handler JSON_parse env req)
              (fun v w' => v = Val tt /\ res_sent w' = Some (ocr_failed (message e))
                           /\ provider_calls (new_events w w') = 0) w).
    unfold ocr_handler, ocr_body. wp_step. enter_post Hm.
    unfold ocr_try, ocr_finally, parseForm, form_parse. rewrite Hp.
    run_exam; events_simpl'; done.
Qed.

(** *** The OCR handler *)

Ltac enter_ocr Hm Hp :=
  unfold ocr_handler, ocr_body; wp_step; enter_post Hm;
  unfold ocr_try, ocr_finally, parseForm, form_parse, documentTextDetection;
  rewrite Hp.

Ltac ocr_simpl Hf :=
  rewrite ?assoc_map_snd, ?bind_fmap_id;
  change (assoc "file" (form_files ?form) ≫= first_of_files) with (picked_file form);
  change (or_default (assoc "exam_type" (form_fields ?form) ≫= first_of_field) defaultExamType)
    with (first_exam_type form);
  rewrite ?Hf;
  cbn [fmap option_fmap option_map mbind option_bind first_of_files head id text_trim].

Lemma picked_file_on_disk form f d :
  picked_file form = Some f -> is_Some (write_files (all_files form) d !! filepath f).
Proof.
  unfold picked_file. intros Hpick. apply (materials_on_disk "file"). unfold materials.
  destruct (assoc "file" (form_files form)) as [[g|l]|]; try discriminate.
  destruct l as [|g l]; try discriminate. injection Hpick as ->. left.
Qed.

Lemma picked_file_all_files form f : picked_file form = Some f -> f ∈ all_files form.
Proof.
  unfold picked_file. intros Hpick. apply (materials_all_files "file"). unfold materials.
  destruct (assoc "file" (form_files form)) as [[g|l]|]; try discriminate.
  destruct l as [|g l]; try discriminate. injection Hpick as ->. left.
Qed.

(** X19. What the OCR handler does to the disk, for every POST whose form
    was parsed: the file it picked (the first one under [file]) is
    deleted and everything else formidable wrote stays, further files
    under [file] and files under other keys included; without a picked
    file nothing is deleted. *)
Theorem ocr_removes_only_picked env req w form :
  method req = "POST" -> parseOutcome env = inr form ->
  disk (snd (ocr_handler JSON_parse env req w))
  = match picked_file form with
    | Some f => if nonempty (filepath f) then delete (filepath f) (uploaded form w)
                else uploaded form w
    | None => uploaded form w
    end.
Proof.
  intros Hm Hp.
  change (wp (ocr_handler JSON_parse env req)
            (fun _ w' =>
               disk w' = match picked_file form with
                         | Some f => if nonempty (filepath f)
                                     then delete (filepath f) (uploaded form w)
                                     else uploaded form w
                         | None => uploaded form w
                         end) w).
  enter_ocr Hm Hp.
  destruct (picked_file form) as [f|] eqn:Hf.
  - assert (Hdisk := picked_file_on_disk form f (disk w) Hf).
    destruct Hdisk as [c Hc].
    (run_exam_with (ocr_simpl Hf)); world_simpl'.
    all: try match goal with
           | Hx : write_files _ _ !! _ = None |- _ => rewrite Hc in Hx; discriminate Hx
           end.
    all: done.
  - (run_exam_with (ocr_simpl Hf)); world_simpl'; done.
Qed.

(** X20. The OCR handler never lets an exception escape and always sends
    a response, for every request and whatever the parser, the file
    system and the two providers do. *)
Theorem ocr_always_responds env req w :
  fst (ocr_handler JSON_parse env req w) = Val tt
  /\ is_Some (res_sent (snd (ocr_handler JSON_parse env req w))).
Proof.
  change (wp (ocr_handler JSON_parse env req)
            (fun v w' => v = Val tt /\ is_Some (res_sent w')) w).
  unfold ocr_handler, ocr_body, ocr_try, ocr_finally. run_exam; world_simpl'.
  all: split; [done|eauto].
Qed.

(** X21. The answer of the OCR handler, once it picked a file and the
    OCR provider returned a text of 50 characters or more, is decided by
    the generation provider: its text, parsed as JSON without trimming,
    comes back in [examen] with status 200, next to the exam type that
    was asked for; an error of the provider gives the 500 response with
    the error's message; a text that is not JSON, or no text, gives that
    500 response too.  The handler returns normally in each case. *)
Theorem ocr_outcome env req w form f text :
  method req = "POST" -> parseOutcome env = inr form -> picked_file form = Some f ->
  ocrOutcome env = inr (Some text) -> 50 <= String.length text ->
  (forall answer j, genOutcome env = inr (Some answer) -> JSON_parse answer = Some j ->
     res_sent (snd (ocr_handler JSON_parse env req w))
     = Some (ocr_exam (first_exam_type form) j))
  /\ (forall e, genOutcome env = inl e ->
      res_sent (snd (ocr_handler JSON_parse env req w)) = Some (ocr_failed (message e)))
  /\ (genOutcome env = inr None
      \/ (exists answer, genOutcome env = inr (Some answer) /\ JSON_parse answer = None) ->
      exists details,
        res_sent (snd (ocr_handler JSON_parse env req w)) = Some (ocr_failed details)).
Proof.
  intros Hm Hp Hf Ho Hlen.
  assert (Hshort : negb (nonempty text) || (String.length text <? 50)%nat = false).
  { destruct (negb (nonempty text) || (String.length text <? 50)%nat) eqn:Hs; [|done].
    apply short_text_iff in Hs. lia. }
  destruct (picked_file_on_disk form f (disk w) Hf) as [c Hc].
  change (wp (ocr_handler JSON_parse env req)
            (fun _ w' =>
               (forall answer j, genOutcome env = inr (Some answer) ->
                                 JSON_parse answer = Some j ->
                                 res_sent w' = Some (ocr_exam (first_exam_type form) j))
               /\ (forall e, genOutcome env = inl e ->
                             res_sent w' = Some (ocr_failed (message e)))
               /\ (genOutcome env = inr None
                   \/ (exists answer, genOutcome env = inr (Some answer)
                                      /\ JSON_parse answer = None) ->
                   exists details, res_sent w' = Some (ocr_failed details))) w).
  enter_ocr Hm Hp. rewrite Ho.
  unfold generateContent.
  destruct (genOutcome env) as [e|[answer|]] eqn:Hg; cbn [lift].
  all: (run_exam_with (ocr_simpl Hf; rewrite ?Hshort)); world_simpl'.
  all: try match goal with
         | Hx : write_files _ _ !! _ = None |- _ => rewrite Hc in Hx; discriminate Hx
         end.
  all: repeat split.
  all: try (intros; discriminate).
  all: try (intros [Hx|(answer' & Hx & Hy)]; try discriminate).
  all: try (intros e' [= <-]; reflexivity).
  all: try (intros answer' j' [= <-] Hj; rewrite Hj in *; simplify_option_eq; done).
  all: try (eexists; reflexivity).
  all: try (injection Hx as <-; rewrite Hy in *; discriminate).
Qed.

(** X22. The OCR handler hands the OCR provider the bytes of the file it
    picked, once; when the OCR provider fails, the answer is the 500
    response with the provider's message and the generation provider is
    not called. *)
Theorem ocr_reads_the_upload env req w form f :
  method req = "POST" -> parseOutcome env = inr form -> picked_file form = Some f ->
  NoDup (map filepath (all_files form)) ->
  ocr_images (new_events w (snd (ocr_handler JSON_parse env req w))) = [contents f]
  /\ (forall e, ocrOutcome env = inl e ->
      res_sent (snd (ocr_handler JSON_parse env req w)) = Some (ocr_failed (message e))
      /\ generate_requests (new_events w (snd (ocr_handler JSON_parse env req w))) = []).
Proof.
  intros Hm Hp Hf Hnd.
  assert (Hc : forall d, write_files (all_files form) d !! filepath f = Some (contents f)).
  { intros d. apply write_files_contents; [done|]. by apply picked_file_all_files. }
  change (wp (ocr_handler JSON_parse env req)
            (fun _ w' =>
               ocr_images (new_events w w') = [contents f]
               /\ (forall e, ocrOutcome env = inl e ->
                             res_sent w' = Some (ocr_failed (message e))
                             /\ generate_requests (new_events w w') = [])) w).
  enter_ocr Hm Hp.
  destruct (ocrOutcome env) as [e|t] eqn:Ho; cbn [lift].
  all: (run_exam_with (ocr_simpl Hf)); world_simpl'.
  all: try match goal with
         | Hx : write_files _ _ !! _ = None |- _ => rewrite Hc in Hx; discriminate Hx
         end.
  all: repeat match goal with
         | Hx : write_files _ _ !! _ = Some _ |- _ => rewrite Hc in Hx; injection Hx as <-
         end.
  all: unfold new_events; world_simpl'; rewrite <- ?app_assoc, ?drop_trace_app;
    cbn [app ocr_images generate_requests].
  all: split; [done|].
  all: try (intros e' [= <-]; done).
  all: intros e' He'; discriminate He'.
Qed.

(** *** The CORS headers of the multi-file handler *)

Lemma cleanup_headers l w :
  wp (cleanup l) (fun _ w' => res_headers w' = res_headers w /\ res_sent w' = res_sent w) w.
Proof.
  unfold cleanup. revert w. induction l as [|f l IH]; intros w; cbn [for_each].
  - by wp_run.
  - wp_step.
    assert (Hstep : wp
      match f with
      | Some f0 => if nonempty (filepath f0) then unlinkSync (filepath f0) else ret tt
      | None => ret tt
      end (fun _ w' => res_headers w' = res_headers w /\ res_sent w' = res_sent w) w).
    { unfold unlinkSync. wp_run; done. }
    eapply wp_mono; [exact Hstep|]. intros [[]|e] w1 [Hh1 Hs1]; [|done].
    eapply wp_mono; [apply IH|]. intros r w2 [Hh2 Hs2]. split; congruence.
Qed.

(** X23. Every run of the multi-file handler, whatever the method, the
    parser and the provider do, leaves exactly the three CORS headers on
    the response object; an OPTIONS request is answered 200 with an empty
    body before the form is parsed. *)
Theorem multi_cors_headers env req w :
  res_headers (snd (multi_handler JSON_parse trim env req w)) = cors_headers
  /\ (method req = "OPTIONS" ->
      multi_handler JSON_parse trim env req w
      = (Val tt,
         set_sent (mkResponse 200%N EndEmpty)
           (add_header ("Access-Control-Allow-Headers", "Content-Type")
              (add_header ("Access-Control-Allow-Methods", "POST, OPTIONS")
                 (add_header ("Access-Control-Allow-Origin", "*") (fresh_res w)))))).
Proof.
  split.
  - change (wp (multi_handler JSON_parse trim env req)
              (fun _ w' => res_headers w' = cors_headers) w).
    unfold multi_handler, multi_body. wp_step. do 6 wp_step.
    destruct (String.eqb (method req) "OPTIONS"); [by wp_run|].
    destruct (negb (String.eqb (method req) "POST")); [by wp_run|].
    unfold form_parse. destruct (parseOutcome env) as [e|form]; [by wp_run|].
    run_to_branch.
    match goal with |- wp (if ?b then _ else _) _ _ => destruct b end; [by wp_run|].
    apply wp_try_finally. apply wp_try_catch. wp_step.
    apply wp_inline_parts_frame. intros r evs Hr.
    destruct r as [parts|e]; cbn beta iota.
    all: (run_exam_with (cbn [text_trim])).
    all: (eapply wp_mono; [apply cleanup_headers|]).
    all: intros r' w' [Hh _]; destruct r' as [[]|e']; rewrite Hh; done.
  - intros Hm. unfold multi_handler, multi_body, invoke, bind, setHeader, modify.
    cbn [fst snd]. rewrite Hm. reflexivity.
Qed.

End WithRuntime.

(** *** The theorems at concrete uploads *)

Local Ltac sample_paths :=
  first
    [ reflexivity
    | discriminate
    | by apply (bool_decide_unpack _); vm_compute
    | let f := fresh "f" in
      let Hf := fresh "Hf" in
      intros f Hf; cbn in Hf;
      repeat (apply elem_of_cons in Hf as [-> | Hf]; [discriminate|]);
      by apply elem_of_nil in Hf ].

Lemma direct_generation_once_witness :
  generate_requests
    (new_events initial (snd (direct_handler accept_json (fun s => s) two_images_ok_env post initial)))
  = [direct_generation two_images_form].
Proof.
  apply (direct_generation_once accept_json (fun s => s) two_images_ok_env post initial
           two_images_form); sample_paths.
Defined.

Lemma direct_outcome_witness :
  res_sent (snd (direct_handler accept_json (fun s => s) two_images_ok_env post initial))
  = Some (direct_exam (JObj []))
  /\ res_sent (snd (direct_handler accept_json (fun s => s) quota_env post initial))
     = Some (direct_failed "429 quota exceeded").
Proof.
  split.
  - destruct (direct_outcome accept_json (fun s => s) two_images_ok_env post initial
                two_images_form) as (_ & Hok & _); [sample_paths..|].
    exact (Hok "{}" (JObj []) eq_refl eq_refl).
  - destruct (direct_outcome accept_json (fun s => s) quota_env post initial
                two_images_form) as (_ & _ & _ & Herr); [sample_paths..|].
    exact (Herr (mkExn "Error" "429 quota exceeded") eq_refl).
Defined.

Lemma multi_generation_once_witness :
  generate_requests
    (new_events initial (snd (multi_handler accept_json (fun s => s) two_images_ok_env post initial)))
  = [multi_generation two_images_form].
Proof.
  apply (multi_generation_once accept_json (fun s => s) two_images_ok_env post initial
           two_images_form); sample_paths.
Defined.

Lemma multi_outcome_witness :
  res_sent (snd (multi_handler accept_json (fun s => s) two_images_ok_env post initial))
  = Some (multi_exam (JObj []))
  /\ res_sent (snd (multi_handler accept_json (fun s => s) quota_env post initial))
     = Some (multi_failed "429 quota exceeded").
Proof.
  split.
  - destruct (multi_outcome accept_json (fun s => s) two_images_ok_env post initial
                two_images_form) as (_ & Hok & _); [sample_paths..|].
    exact (Hok "{}" (JObj []) eq_refl eq_refl).
  - destruct (multi_outcome accept_json (fun s => s) quota_env post initial
                two_images_form) as (_ & _ & _ & Herr); [sample_paths..|].
    exact (Herr (mkExn "Error" "429 quota exceeded") eq_refl).
Defined.

Lemma multi_removes_its_uploads_witness :
  disk (snd (multi_handler accept_json (fun s => s) quota_env post initial)) !! "/tmp/upload_1"
  = None
  /\ disk (snd (multi_handler accept_json (fun s => s) quota_env post initial)) !! "/tmp/upload_3"
     = Some "TXT".
Proof.
  destruct (multi_removes_its_uploads accept_json (fun s => s) quota_env post initial
              two_images_form) as (_ & Hgone & Hkept); [sample_paths..|].
  split.
  - apply (Hgone one_image). cbn. apply elem_of_cons. by left.
  - rewrite (Hkept "/tmp/upload_3"); [reflexivity|].
    cbn. intros Hin.
    repeat (apply elem_of_cons in Hin as [Hin | Hin]; [discriminate Hin|]).
    by apply elem_of_nil in Hin.
Defined.

Lemma parse_failure_handling_witness :
  res_sent (snd (direct_handler accept_json (fun s => s) broken_upload_env post initial))
  = Some (direct_failed "maxFileSize exceeded")
  /\ fst (multi_handler accept_json (fun s => s) broken_upload_env post initial)
     = Thrown (mkExn "Error" "maxFileSize exceeded")
  /\ res_sent (snd (multi_handler accept_json (fun s => s) broken_upload_env post initial)) = None
  /\ res_sent (snd (ocr_handler accept_json broken_upload_env post initial))
     = Some (ocr_failed "maxFileSize exceeded").
Proof.
  destruct (parse_failure_handling accept_json (fun s => s) broken_upload_env post initial
              (mkExn "Error" "maxFileSize exceeded") eq_refl eq_refl)
    as ((_ & Hd & _) & (Hm & Hm' & _) & (_ & Ho & _)).
  repeat split; assumption.
Defined.

Lemma ocr_removes_only_picked_witness :
  disk (snd (ocr_handler accept_json two_under_file_env post initial)) !! "/tmp/upload_1" = None
  /\ disk (snd (ocr_handler accept_json two_under_file_env post initial)) !! "/tmp/upload_2"
     = Some "JPG".
Proof.
  rewrite (ocr_removes_only_picked accept_json two_under_file_env post initial
             (mkForm [] [("file", Many [one_image;
                                         mkFile "/tmp/upload_2" (Some "image/jpeg") "JPG"])])
             eq_refl eq_refl).
  split; reflexivity.
Defined.

Lemma ocr_outcome_witness :
  res_sent (snd (ocr_handler accept_json (ocr_env 60) post initial))
  = Some (ocr_exam (first_exam_type ocr_form) (JObj [])).
Proof.
  destruct (ocr_outcome accept_json (ocr_env 60) post initial ocr_form one_image
              (text_of_length 60) eq_refl eq_refl eq_refl eq_refl) as (Hok & _).
  - vm_compute. lia.
  - exact (Hok "{}" (JObj []) eq_refl eq_refl).
Defined.

Lemma ocr_reads_the_upload_witness :
  ocr_images (new_events initial (snd (ocr_handler accept_json ocr_down_env post initial)))
  = ["PNG"]
  /\ res_sent (snd (ocr_handler accept_json ocr_down_env post initial))
     = Some (ocr_failed "PERMISSION_DENIED")
  /\ generate_requests (new_events initial (snd (ocr_handler accept_json ocr_down_env post initial)))
     = [].
Proof.
  destruct (ocr_reads_the_upload accept_json ocr_down_env post initial ocr_form one_image
              eq_refl eq_refl eq_refl) as (Himg & Herr); [sample_paths|].
  destruct (Herr (mkExn "Error" "PERMISSION_DENIED") eq_refl) as (Hres & Hgen).
  repeat split; assumption.
Defined.

Lemma multi_cors_headers_witness :
  res_sent (snd (multi_handler accept_json (fun s => s) broken_upload_env
                   (mkRequest "OPTIONS") initial))
  = Some (mkResponse 200%N EndEmpty)
  /\ res_headers (snd (multi_handler accept_json (fun s => s) broken_upload_env
                         (mkRequest "OPTIONS") initial))
     = cors_headers.
Proof.
  destruct (multi_cors_headers accept_json (fun s => s) broken_upload_env
              (mkRequest "OPTIONS") initial) as (Hh & Hopt).
  split; [|exact Hh].
  rewrite (Hopt eq_refl). reflexivity.
Defined.

End ExamPipelineCoverage.
